(** * Datastore and collection commands of the Blockstack client

    A shallow embedding of the datastore part of
    [blockstack_client/actions.py]: the [*_by_type] helpers, the
    [datastore_*] wrappers and the [cli_datastore_*] / [cli_collection_*]
    commands, together with the properties the specification states
    about them.

    The commands are thin layers over the [data] and [rpc] modules of the
    client.  Those modules are taken as an interface ([Backend]), over an
    arbitrary type of worlds; every command of [actions.py] is defined
    for every backend.  A model of that interface, written from the
    specification, is given in [Module SpecData]. *)

From Stdlib Require Import ZArith Ascii String List.
From stdpp Require Import base option list strings pretty gmap fin_maps stringmap.

Open Scope string_scope.
Open Scope Z_scope.

(** ** Python values *)

Module Py.

Inductive exn :=
| TypeError
| AttributeError
| UnboundLocalError
| KeyError
| AssertionError.

(** The result of running a function body: it returns, or an exception
    escapes.  Both carry the world the run ends in. *)
Inductive outcome (W A : Type) :=
| Returned (a : A) (w : W)
| Raised (e : exn) (w : W).
Arguments Returned {W A} a w.
Arguments Raised {W A} e w.

Definition M (W A : Type) : Type := W → outcome W A.

Global Instance M_ret {W} : MRet (M W) := λ A a w, Returned a w.
Global Instance M_bind {W} : MBind (M W) := λ A B f m w,
  match m w with
  | Returned a w' => f a w'
  | Raised e w' => Raised e w'
  end.

Global Instance M_fmap {W} : FMap (M W) := λ A B f m w,
  match m w with
  | Returned a w' => Returned (f a) w'
  | Raised e w' => Raised e w'
  end.

Definition raise {W A} (e : exn) : M W A := λ w, Raised e w.
(** A call into code that never raises: it returns a value and a world. *)
Definition call {W A} (f : W → A * W) : M W A :=
  λ w, let '(a, w') := f w in Returned a w'.
(** A read of the world. *)
Definition ask {W A} (f : W → A) : M W A := λ w, Returned (f w) w.

Definition returned_value {W A} (o : outcome W A) : option A :=
  match o with Returned a _ => Some a | Raised _ _ => None end.
Definition final_world {W A} (o : outcome W A) : W :=
  match o with Returned _ w => w | Raised _ w => w end.
Definition raises {W A} (o : outcome W A) : option exn :=
  match o with Returned _ _ => None | Raised e _ => Some e end.

(** [str.lower()] on ASCII letters. *)
Definition lower_ascii (c : ascii) : ascii :=
  let n := nat_of_ascii c in
  if ((65 <=? n) && (n <=? 90))%nat then ascii_of_nat (n + 32) else c.

Fixpoint lower (s : string) : string :=
  match s with
  | EmptyString => EmptyString
  | String c r => String (lower_ascii c) (lower r)
  end.

(** [s.split(sep)] for a one-character separator: the empty string
    splits into one empty field. *)
Fixpoint split_go (sep : ascii) (cur : string) (s : string) : list string :=
  match s with
  | EmptyString => [String.rev cur]
  | String c r =>
      if Ascii.eqb c sep then String.rev cur :: split_go sep EmptyString r
      else split_go sep (String c cur) r
  end.
Definition split (sep : ascii) (s : string) : list string :=
  split_go sep EmptyString s.

Definition in_list (s : string) (l : list string) : bool :=
  existsb (String.eqb s) l.

(** Binding of the arguments of a call to the parameters of a [def]:
    [params] in order, of which the first [required] have no default. *)
Record pysig := { params : list string; required : nat }.

Definition py_bind (sig : pysig) (npos : nat) (kwargs : list string) : bool :=
  (npos <=? length (params sig))%nat
  && forallb (λ k, in_list k (drop npos (params sig))) kwargs
  && forallb (λ p, in_list p kwargs) (drop npos (take (required sig) (params sig))).

(** A call with [npos] positional arguments and the keywords [kwargs]:
    the body runs when the arguments bind, and [TypeError] is raised
    otherwise. *)
Definition py_call {W A} (sig : pysig) (npos : nat) (kwargs : list string)
    (body : M W A) : M W A :=
  if py_bind sig npos kwargs then body else raise TypeError.

End Py.
Export Py.

(** ** Data model (spec section 3) and result objects *)

Inductive inode_type := MUTABLE_DATUM_FILE_TYPE | MUTABLE_DATUM_DIR_TYPE.

Global Instance inode_type_eq_dec : EqDecision inode_type.
Proof. solve_decision. Defined.

Record dirent := { de_uuid : string; de_type : inode_type }.

Inductive payload :=
| FileData (bytes : string)
| DirData (entries : gmap string dirent).

Definition payload_type (p : payload) : inode_type :=
  match p with
  | FileData _ => MUTABLE_DATUM_FILE_TYPE
  | DirData _ => MUTABLE_DATUM_DIR_TYPE
  end.

(** The datastore record; [ds_device_ids] is the device list of the
    handle the record was fetched with. *)
Record datastore := {
  ds_type : string;
  ds_pubkey : string;
  ds_root_uuid : string;
  ds_drivers : list string;
  ds_device_ids : list string
}.

(** An inode as a command reports it: ['uuid'], ['type'], ['version'] and,
    when asked for, ['idata']. *)
Record inode_info := {
  ii_uuid : string;
  ii_type : inode_type;
  ii_version : nat;
  ii_idata : option payload
}.

Inductive pyval :=
| PNone
| PBool (b : bool)
| PInt (n : Z)
| PStr (s : string)
| PDatastore (d : datastore)
| PInode (i : inode_info)
| PEntries (es : gmap string dirent).

(** A Python dict with string keys: the result objects, and the
    attributes of an [args] namespace. *)
Abbreviation dict := (gmap string pyval).

(** [str(v)]. *)
Definition py_str (v : pyval) : string :=
  match v with
  | PNone => "None"
  | PBool true => "True"
  | PBool false => "False"
  | PInt n => pretty n
  | PStr s => s
  | PDatastore _ => "<datastore>"
  | PInode _ => "<inode>"
  | PEntries _ => "<entries>"
  end.

(** Truth value of [v] in a condition. *)
Definition py_truthy (v : pyval) : bool :=
  match v with
  | PNone => false
  | PBool b => b
  | PInt n => negb (n =? 0)
  | PStr s => negb (String.eqb s EmptyString)
  | PDatastore _ => true
  | PInode _ => true
  | PEntries es => negb (bool_decide (es = ∅))
  end.

Section PyObjects.
Context {W : Type}.

(** [v.lower()]: only a [str] has the method. *)
Definition py_lower (v : pyval) : M W string :=
  match v with
  | PStr s => mret (lower s)
  | _ => raise AttributeError
  end.

(** [v.split(',')]. *)
Definition py_split_csv (v : pyval) : M W (list string) :=
  match v with
  | PStr s => mret (split "," s)
  | _ => raise AttributeError
  end.

Definition hasattr (args : dict) (name : string) : bool :=
  bool_decide (is_Some (args !! name)).

(** [args.name]. *)
Definition getattr (args : dict) (name : string) : M W pyval :=
  match args !! name with
  | Some v => mret v
  | None => raise AttributeError
  end.

(** [getattr(args, name, dflt)]. *)
Definition getattr_default (args : dict) (name : string) (dflt : pyval) : pyval :=
  default dflt (args !! name).

(** ['key' in d] and [d['key']]. *)
Definition dict_has (d : dict) (key : string) : bool :=
  bool_decide (is_Some (d !! key)).

Definition dict_item (d : dict) (key : string) : M W pyval :=
  match d !! key with
  | Some v => mret v
  | None => raise KeyError
  end.

(** [datastore_info['datastore']] used as a datastore record. *)
Definition as_datastore (v : pyval) : M W datastore :=
  match v with
  | PDatastore d => mret d
  | _ => raise TypeError
  end.

End PyObjects.

(** ** errno *)

Module errno.
Definition EPERM : Z := 1.
Definition ENOENT : Z := 2.
Definition EEXIST : Z := 17.
Definition ENOTDIR : Z := 20.
Definition EISDIR : Z := 21.
Definition EINVAL : Z := 22.
Definition ENOTEMPTY : Z := 39.
End errno.

Definition error_result (msg : string) : dict := {[ "error" := PStr msg ]}.
Definition errno_result (msg : string) (code : Z) : dict :=
  <[ "errno" := PInt code ]> {[ "error" := PStr msg ]}.
Definition status_true : dict := {[ "status" := PBool true ]}.

(** ** The modules [actions.py] calls into

    None of [data.py], [rpc.py], [keys.py], [proxy.py] is part of the
    sources at hand; the commands below are defined over any
    implementation of them.  Reads of the local API endpoint and of the
    local file system are functions of the world; the operations of the
    data module return a result object and a new world. *)

Module Api.

Record Backend (W : Type) := {
  get_pubkey_hex : string → string;
  datastore_get_id : string → string;
  get_default_proxy : W → pyval;
  get_secret : W → string → pyval;
  (* [os.path.exists(p)] and [open(p).read()]; [None] when the read fails *)
  os_path_exists : W → string → bool;
  open_read : W → string → option string;
  (* [local_api_connect] answers [None] when the endpoint is down; the
     result object of the other operations comes with the world they
     leave.  Arguments in the order of [data.py]'s callers, without [rpc]
     and [config_path]; [datastore_putfile] ends in [create] and [force],
     [datastore_rmdir] and [datastore_deletefile] in [force],
     [datastore_getfile] and [datastore_listdir] in [extended] and
     [force], [datastore_stat] in [extended], [force] and [idata],
     [datastore_getinode] in [idata] *)
  local_api_connect : W → bool;
  backend_datastore_get : W → string → option (list string) → dict;
  make_datastore_info : W → string → string → option (list string) → dict;
  put_datastore : dict → string → W → dict * W;
  delete_datastore : datastore → string → W → dict * W;
  datastore_mkdir : datastore → string → string → W → dict * W;
  datastore_rmdir : datastore → string → string → bool → W → dict * W;
  datastore_rmtree : datastore → string → string → W → dict * W;
  datastore_getfile : datastore → string → bool → bool → W → dict * W;
  datastore_putfile : datastore → string → pyval → string → bool → bool → W → dict * W;
  datastore_deletefile : datastore → string → string → bool → W → dict * W;
  datastore_listdir : datastore → string → bool → bool → W → dict * W;
  datastore_stat : datastore → string → bool → bool → bool → W → dict * W;
  datastore_getinode : datastore → string → bool → W → dict * W
}.
Arguments get_pubkey_hex {W} _ _.
Arguments datastore_get_id {W} _ _.
Arguments get_default_proxy {W} _ _.
Arguments get_secret {W} _ _ _.
Arguments os_path_exists {W} _ _ _.
Arguments open_read {W} _ _ _.
Arguments local_api_connect {W} _ _.
Arguments backend_datastore_get {W} _ _ _ _.
Arguments make_datastore_info {W} _ _ _ _ _.
Arguments put_datastore {W} _ _ _ _.
Arguments delete_datastore {W} _ _ _ _.
Arguments datastore_mkdir {W} _ _ _ _ _.
Arguments datastore_rmdir {W} _ _ _ _ _ _.
Arguments datastore_rmtree {W} _ _ _ _ _.
Arguments datastore_getfile {W} _ _ _ _ _ _.
Arguments datastore_putfile {W} _ _ _ _ _ _ _ _.
Arguments datastore_deletefile {W} _ _ _ _ _ _.
Arguments datastore_listdir {W} _ _ _ _ _ _.
Arguments datastore_stat {W} _ _ _ _ _ _ _.
Arguments datastore_getinode {W} _ _ _ _ _.

End Api.
Export Api.

(** ** [blockstack_client/actions.py] *)

Module Sig.
(** The parameter lists of the [def]s that are called with keywords. *)
Definition datastore_file_get : pysig :=
  {| params := ["datastore_type"; "datastore_id"; "path"; "extended"; "force";
                "device_ids"; "config_path"];
     required := 3 |}.
Definition datastore_file_put : pysig :=
  {| params := ["datastore_type"; "datastore_privkey"; "path"; "data"; "create";
                "force_data"; "force"; "device_ids"; "config_path"];
     required := 4 |}.
Definition datastore_dir_list : pysig :=
  {| params := ["datastore_type"; "datastore_id"; "path"; "extended"; "force";
                "device_ids"; "config_path"];
     required := 3 |}.
Definition datastore_path_stat : pysig :=
  {| params := ["datastore_type"; "datastore_id"; "path"; "extended"; "force";
                "idata"; "device_ids"; "config_path"];
     required := 3 |}.
Definition datastore_inode_getinode : pysig :=
  {| params := ["datastore_type"; "datastore_id"; "inode_uuid"; "idata";
                "device_ids"; "config_path"];
     required := 3 |}.
Definition create_datastore_by_type : pysig :=
  {| params := ["datastore_type"; "datastore_privkey"; "drivers"; "config_path"];
     required := 2 |}.
Definition delete_datastore_by_type : pysig :=
  {| params := ["datastore_type"; "datastore_privkey"; "force"; "config_path"];
     required := 2 |}.
End Sig.

Definition api_not_running : dict :=
  error_result "API endpoint not running. Please start it with `api start`".

(** ['{} is a {}'.format(datastore_id, datastore['type'])] *)
Definition is_a (datastore_id ty : string) : string :=
  datastore_id ++ " is a " ++ ty.

Definition dquote : string := String (ascii_of_nat 34) EmptyString.

(** [is_valid_path]: a [str] all of whose characters are printable and
    none of tab, newline, carriage return, vertical tab, form feed; that
    is, the characters from space to tilde. *)
Definition valid_char (c : ascii) : bool :=
  let n := nat_of_ascii c in ((32 <=? n) && (n <=? 126))%nat.

Fixpoint all_chars (f : ascii → bool) (s : string) : bool :=
  match s with
  | EmptyString => true
  | String c r => f c && all_chars f r
  end.

Definition is_valid_path (path : pyval) : bool :=
  match path with
  | PStr s => all_chars valid_char s
  | _ => false
  end.

Section Actions.
Context {W : Type} (B : Backend W).

Local Abbreviation M := (Py.M W).

(** [hasattr(args, name) and args.name.lower() in ['1', 'true']] *)
Definition opt_flag (args : dict) (name : string) : M bool :=
  if hasattr args name then
    v ← getattr args name;
    l ← py_lower v;
    mret (in_list l ["1"; "true"])
  else mret false.

(** [if hasattr(args, 'device_ids') and args.device_ids:
       device_ids = args.device_ids.split(',')], from [device_ids = None]. *)
Definition opt_device_ids (args : dict) : M (option (list string)) :=
  if hasattr args "device_ids" then
    v ← getattr args "device_ids";
    if py_truthy v then l ← py_split_csv v; mret (Some l) else mret None
  else mret None.

(** [str(args.name)] *)
Definition str_attr (args : dict) (name : string) : M string :=
  v ← getattr args name; mret (py_str v).

Definition get_default_password (password : pyval) : M pyval :=
  match password with
  | PNone => ask (λ w, get_secret B w "BLOCKSTACK_CLIENT_WALLET_PASSWORD")
  | _ => mret password
  end.

(** The value of a local variable; reading one that is not bound yet
    raises. *)
Definition read_local {A} (v : option A) : M A :=
  match v with
  | Some x => mret x
  | None => raise UnboundLocalError
  end.

Definition _remove_datastore (ds : datastore) (datastore_privkey : string)
    (rmtree force : bool) : M dict :=
  let datastore_pubkey := get_pubkey_hex B datastore_privkey in
  let datastore_id := datastore_get_id B datastore_pubkey in
  failed ←
    (if rmtree then
       res ← call (datastore_rmtree B ds "/" datastore_privkey);
       mret (dict_has res "error" && negb force)
     else mret false);
  if (failed : bool) then
    mret (errno_result "Failed to remove all files and directories" errno.ENOTEMPTY)
  else
    call (delete_datastore B ds datastore_privkey).

Definition create_datastore_by_type (datastore_type datastore_privkey : string)
    (drivers : option (list string)) : M dict :=
  let datastore_pubkey := get_pubkey_hex B datastore_privkey in
  let datastore_id := datastore_get_id B datastore_pubkey in
  rpc ← ask (local_api_connect B);
  if negb rpc then mret api_not_running
  else
    res ← ask (λ w, backend_datastore_get B w datastore_id None);
    if negb (dict_has res "error") then
      mret (errno_result "Datastore exists" errno.EEXIST)
    else
      datastore_info ← ask (λ w, make_datastore_info B w datastore_type datastore_pubkey drivers);
      if dict_has datastore_info "error" then mret datastore_info
      else
        res ← call (put_datastore B datastore_info datastore_privkey);
        if dict_has res "error" then mret res
        else mret status_true.

Definition delete_datastore_by_type (datastore_type datastore_privkey : string)
    (force : bool) : M dict :=
  let datastore_id := datastore_get_id B (get_pubkey_hex B datastore_privkey) in
  rpc ← ask (local_api_connect B);
  if negb rpc then mret api_not_running
  else
    datastore_info ← ask (λ w, backend_datastore_get B w datastore_id None);
    if dict_has datastore_info "error" then mret datastore_info
    else
      ds ← dict_item datastore_info "datastore" ≫= as_datastore;
      if negb (String.eqb (ds_type ds) datastore_type) then
        mret (error_result (is_a datastore_id (ds_type ds)))
      else
        res ← _remove_datastore ds datastore_privkey true force;
        if dict_has res "error" then mret res
        else mret status_true.

Definition datastore_file_get (datastore_type datastore_id path : string)
    (extended force : bool) (device_ids : option (list string)) : M dict :=
  rpc ← ask (local_api_connect B);
  if negb rpc then mret api_not_running
  else
    datastore_info ← ask (λ w, backend_datastore_get B w datastore_id device_ids);
    if dict_has datastore_info "error" then
      if negb (dict_has datastore_info "errno") then
        mret (<[ "errno" := PInt errno.EPERM ]> datastore_info)
      else mret datastore_info
    else
      ds ← dict_item datastore_info "datastore" ≫= as_datastore;
      if negb (String.eqb (ds_type ds) datastore_type) then
        mret (error_result (is_a datastore_id (ds_type ds)))
      else
        call (datastore_getfile B ds path extended force).

Definition datastore_file_put (datastore_type datastore_privkey path : string)
    (data : pyval) (create force_data force : bool)
    (device_ids : option (list string)) : M dict :=
  let datastore_id := datastore_get_id B (get_pubkey_hex B datastore_privkey) in
  (* is this a path, and are we allowed to take paths? *)
  use_file ← ask (λ w, is_valid_path data && os_path_exists B w (py_str data)
                        && negb force_data);
  read ←
    (if (use_file : bool) then ask (λ w, PStr <$> open_read B w (py_str data))
     else mret (Some data));
  match read with
  | None => mret (error_result ("Failed to read " ++ dquote ++ py_str data ++ dquote))
  | Some data =>
      rpc ← ask (local_api_connect B);
      if negb rpc then mret api_not_running
      else
        datastore_info ← ask (λ w, backend_datastore_get B w datastore_id device_ids);
        if dict_has datastore_info "error" then mret datastore_info
        else
          ds ← dict_item datastore_info "datastore" ≫= as_datastore;
          call (datastore_putfile B ds path data datastore_privkey create false)
  end.

Definition datastore_dir_list (datastore_type datastore_id path : string)
    (extended force : bool) (device_ids : option (list string)) : M dict :=
  rpc ← ask (local_api_connect B);
  if negb rpc then mret api_not_running
  else
    datastore_info ← ask (λ w, backend_datastore_get B w datastore_id device_ids);
    if dict_has datastore_info "error" then
      if negb (dict_has datastore_info "errno") then
        mret (<[ "errno" := PInt errno.EPERM ]> datastore_info)
      else mret datastore_info
    else
      ds ← dict_item datastore_info "datastore" ≫= as_datastore;
      if negb (String.eqb (ds_type ds) datastore_type) then
        mret (errno_result (is_a datastore_id (ds_type ds)) errno.EINVAL)
      else if String.eqb datastore_type "collection"
                && negb (String.eqb path "/") then
        (* can only be '/' *)
        mret (errno_result "Invalid argument: collections do not have directories"
                           errno.EINVAL)
      else
        call (datastore_listdir B ds path extended force).

Definition datastore_path_stat (datastore_type datastore_id path : string)
    (extended force idata : bool) (device_ids : option (list string)) : M dict :=
  rpc ← ask (local_api_connect B);
  if negb rpc then mret api_not_running
  else
    datastore_info ← ask (λ w, backend_datastore_get B w datastore_id device_ids);
    if dict_has datastore_info "error" then mret datastore_info
    else
      ds ← dict_item datastore_info "datastore" ≫= as_datastore;
      if negb (String.eqb (ds_type ds) datastore_type) then
        mret (error_result (is_a datastore_id (ds_type ds)))
      else
        call (datastore_stat B ds path extended force idata).

Definition datastore_inode_getinode (datastore_type datastore_id inode_uuid : string)
    (idata : bool) (device_ids : option (list string)) : M dict :=
  rpc ← ask (local_api_connect B);
  if negb rpc then mret api_not_running
  else
    datastore_info ← ask (λ w, backend_datastore_get B w datastore_id device_ids);
    if dict_has datastore_info "error" then mret datastore_info
    else
      ds ← dict_item datastore_info "datastore" ≫= as_datastore;
      if negb (String.eqb (ds_type ds) datastore_type) then
        mret (error_result (is_a datastore_id (ds_type ds)))
      else
        call (datastore_getinode B ds inode_uuid idata).

(** *** The commands *)

Definition cli_create_datastore (args : dict) : M dict :=
  privkey ← str_attr args "privkey";
  let drivers := getattr_default args "drivers" PNone in
  drivers ← (if py_truthy drivers then Some <$> py_split_csv drivers else mret None);
  py_call Sig.create_datastore_by_type 2 ["drivers"; "config_path"]
    (create_datastore_by_type "datastore" privkey drivers).

Definition cli_delete_datastore (args : dict) : M dict :=
  privkey ← str_attr args "privkey";
  force ←
    (if hasattr args "force" then
       v ← getattr args "force";
       mret (in_list (lower (py_str v)) ["1"; "true"; "force"; "yes"])
     else mret false);
  py_call Sig.delete_datastore_by_type 2 ["force"; "config_path"]
    (delete_datastore_by_type "datastore" privkey force).

Definition cli_datastore_mkdir (args : dict) : M dict :=
  path ← str_attr args "path";
  datastore_privkey_hex ← str_attr args "privkey";
  let datastore_pubkey_hex := get_pubkey_hex B datastore_privkey_hex in
  let datastore_id := datastore_get_id B datastore_pubkey_hex in
  rpc ← ask (local_api_connect B);
  if negb rpc then mret api_not_running
  else
    datastore_info ← ask (λ w, backend_datastore_get B w datastore_id None);
    if dict_has datastore_info "error" then mret datastore_info
    else
      ds ← dict_item datastore_info "datastore" ≫= as_datastore;
      if negb (String.eqb datastore_id
                 (datastore_get_id B (get_pubkey_hex B datastore_privkey_hex)))
      then raise AssertionError
      else
        res ← call (datastore_mkdir B ds path datastore_privkey_hex);
        mret res.

Definition cli_datastore_rmdir (args : dict) : M dict :=
  path ← str_attr args "path";
  datastore_privkey_hex ← str_attr args "privkey";
  let datastore_pubkey_hex := get_pubkey_hex B datastore_privkey_hex in
  let datastore_id := datastore_get_id B datastore_pubkey_hex in
  l ← py_lower (getattr_default args "force" (PStr EmptyString));
  let force := in_list l ["1"; "true"] in
  rpc ← ask (local_api_connect B);
  if negb rpc then mret api_not_running
  else
    datastore_info ← ask (λ w, backend_datastore_get B w datastore_id None);
    if dict_has datastore_info "error" then mret datastore_info
    else
      ds ← dict_item datastore_info "datastore" ≫= as_datastore;
      if negb (String.eqb datastore_id
                 (datastore_get_id B (get_pubkey_hex B datastore_privkey_hex)))
      then raise AssertionError
      else call (datastore_rmdir B ds path datastore_privkey_hex force).

Definition cli_datastore_rmtree (args : dict) : M dict :=
  path ← str_attr args "path";
  datastore_privkey_hex ← str_attr args "privkey";
  let datastore_pubkey_hex := get_pubkey_hex B datastore_privkey_hex in
  let datastore_id := datastore_get_id B datastore_pubkey_hex in
  rpc ← ask (local_api_connect B);
  if negb rpc then mret api_not_running
  else
    datastore_info ← ask (λ w, backend_datastore_get B w datastore_id None);
    if dict_has datastore_info "error" then mret datastore_info
    else
      ds ← dict_item datastore_info "datastore" ≫= as_datastore;
      if negb (String.eqb datastore_id
                 (datastore_get_id B (get_pubkey_hex B datastore_privkey_hex)))
      then raise AssertionError
      else call (datastore_rmtree B ds path datastore_privkey_hex).

Definition cli_datastore_getfile (args : dict) : M dict :=
  datastore_id ← str_attr args "datastore_id";
  path ← str_attr args "path";
  extended ← opt_flag args "extended";
  force ← opt_flag args "force";
  device_ids ← opt_device_ids args;
  py_call Sig.datastore_file_get 3 ["extended"; "force"; "device_ids"; "config_path"]
    (datastore_file_get "datastore" datastore_id path extended force device_ids).

Definition cli_datastore_listdir (args : dict) : M dict :=
  datastore_id ← str_attr args "datastore_id";
  path ← str_attr args "path";
  extended ← opt_flag args "extended";
  force ← opt_flag args "force";
  device_ids ← opt_device_ids args;
  py_call Sig.datastore_dir_list 3 ["extended"; "force"; "device_ids"; "config_path"]
    (datastore_dir_list "datastore" datastore_id path extended force device_ids).

Definition cli_datastore_stat (args : dict) : M dict :=
  path ← str_attr args "path";
  datastore_id ← str_attr args "datastore_id";
  path ← str_attr args "path";
  extended ← opt_flag args "extended";
  force ← opt_flag args "force";
  idata ← opt_flag args "idata";
  device_ids ← opt_device_ids args;
  py_call Sig.datastore_path_stat 3
    ["extended"; "force"; "idata"; "device_ids"; "config_path"]
    (datastore_path_stat "datastore" datastore_id path extended force idata device_ids).

Definition cli_datastore_getinode (args : dict) : M dict :=
  datastore_id ← str_attr args "datastore_id";
  inode_uuid ← str_attr args "inode_uuid";
  force ← opt_flag args "force";
  idata ← opt_flag args "idata";
  (* [device_ids = None], and the branch splits that local, not the attribute *)
  let device_ids_local := PNone in
  device_ids ←
    (if hasattr args "device_ids" then
       v ← getattr args "device_ids";
       if py_truthy v then Some <$> py_split_csv device_ids_local else mret None
     else mret None);
  py_call Sig.datastore_inode_getinode 3
    ["force"; "idata"; "device_ids"; "config_path"]
    (datastore_inode_getinode "datastore" datastore_id inode_uuid idata device_ids).

Definition cli_datastore_putfile (args : dict) (force_data : bool) : M dict :=
  path ← str_attr args "path";
  data ← str_attr args "data";
  privkey ← str_attr args "privkey";
  let create := in_list (lower (py_str (getattr_default args "create" (PStr EmptyString))))
                        ["1"; "create"; "true"] in
  let force := in_list (lower (py_str (getattr_default args "force" (PStr EmptyString))))
                       ["1"; "true"] in
  device_ids ← opt_device_ids args;
  (* [force] is computed and not handed on: the callee runs with its default *)
  py_call Sig.datastore_file_put 4
    ["create"; "force_data"; "device_ids"; "config_path"]
    (datastore_file_put "datastore" privkey path (PStr data) create force_data false
                        device_ids).

Definition cli_datastore_deletefile (args : dict) : M dict :=
  path ← str_attr args "path";
  privkey ← str_attr args "privkey";
  let datastore_id := datastore_get_id B (get_pubkey_hex B privkey) in
  let force := in_list (lower (py_str (getattr_default args "force" (PStr EmptyString))))
                       ["1"; "true"] in
  device_ids ← opt_device_ids args;
  rpc ← ask (local_api_connect B);
  if negb rpc then mret api_not_running
  else
    datastore_info ← ask (λ w, backend_datastore_get B w datastore_id device_ids);
    if dict_has datastore_info "error" then
      mret (<[ "errno" := PInt errno.EPERM ]> datastore_info)
    else
      ds ← dict_item datastore_info "datastore" ≫= as_datastore;
      call (datastore_deletefile B ds path privkey force).

(** The names and entries of [res['dir']] when it is used as a mapping
    from names to entries, as [cli_collection_listitems] does. *)
Definition as_entries (v : pyval) : M (gmap string dirent) :=
  match v with
  | PEntries es => mret es
  | PInode _ => raise TypeError
  | _ => raise AttributeError
  end.

Definition cli_collection_listitems (args : dict) (password proxy : pyval) : M dict :=
  proxy ← (match proxy with PNone => ask (get_default_proxy B) | _ => mret proxy end);
  password ← get_default_password password;
  collection_domain ← str_attr args "collection_domain";
  path ← str_attr args "path";
  res ← py_call Sig.datastore_dir_list 3 ["config_path"; "proxy"]
          (datastore_dir_list "collection" collection_domain "/" false false None);
  if dict_has res "error" then mret res
  else
    (* if somehow we get a directory in here, exclude it *)
    dir_info ← dict_item res "dir" ≫= as_entries;
    let filtered_dir_info :=
      filter (λ kv, de_type kv.2 = MUTABLE_DATUM_FILE_TYPE) dir_info in
    mret (<[ "dir" := PEntries filtered_dir_info ]> status_true).

Definition cli_collection_statitem (args : dict) (proxy : pyval) : M dict :=
  proxy ← (match proxy with PNone => ask (get_default_proxy B) | _ => mret proxy end);
  (* [password] is a local of this function, assigned by the very line
     that reads it *)
  password ← read_local (None : option pyval) ≫= get_default_password;
  collection_id ← str_attr args "collection_id";
  item_id ← str_attr args "item_id";
  py_call Sig.datastore_path_stat 3 ["proxy"; "config_path"]
    (datastore_path_stat "collection" collection_id ("/" ++ item_id)
                         false false false None).

Definition cli_collection_putitem (args : dict) (proxy password : pyval)
    (force_data : bool) (master_data_privkey : pyval) : M dict :=
  proxy ← (match proxy with PNone => ask (get_default_proxy B) | _ => mret proxy end);
  password ← get_default_password password;
  collection_domain ← str_attr args "collection_domain";
  item_id ← str_attr args "item_id";
  data ← getattr args "data";
  let collection_privkey := getattr_default args "collection_privkey" PNone in
  collection_privkey ←
    (match collection_privkey with
     | PNone => mret PNone
     | _ => PStr <$> str_attr args "collection_privkey"
     end);
  py_call Sig.datastore_file_put 4
    ["app_domain"; "create"; "force_data"; "proxy"; "config_path";
     "master_data_privkey"; "password"]
    (datastore_file_put "collection" (py_str collection_privkey) ("/" ++ item_id)
                        data true force_data false None).

Definition cli_collection_getitem (args : dict) (password proxy : pyval) : M dict :=
  proxy ← (match proxy with PNone => ask (get_default_proxy B) | _ => mret proxy end);
  password ← get_default_password password;
  collection_domain ← str_attr args "collection_domain";
  item_id ← str_attr args "item_id";
  py_call Sig.datastore_file_get 3 ["password"; "config_path"; "proxy"]
    (datastore_file_get "collection" collection_domain ("/" ++ item_id)
                        false false None).

End Actions.

(** ** A model of the data module, from the specification

    [data.py], [rpc.py] and the storage drivers are not among the sources.
    This module models them from sections 3 and 4 of the specification:
    inodes, the version reconciler, the inode store, the path resolver,
    tombstones and the operations of the table in section 4.6. The
    envelope codec and the signatures are left out: the store holds
    decoded, verified inodes. *)

Module SpecData.

(** Modelled from the spec: the error taxonomy of section 7, which
    [data.py] would report; no source for it is at hand. *)
Inductive error :=
| NotFound
| AlreadyExists
| NotEmpty
| StaleData
| InvalidArgument
| NotADirectory
| IsADirectory
| Tombstoned.

(** Modelled from the spec: the errno of each error of [data.py] (sections
    4.6, 6 and 8); a tombstoned read is reported as [ENOENT]. *)
Definition errno_of (e : error) : Z :=
  match e with
  | NotFound => errno.ENOENT
  | AlreadyExists => errno.EEXIST
  | NotEmpty => errno.ENOTEMPTY
  | StaleData => errno.EPERM
  | InvalidArgument => errno.EINVAL
  | NotADirectory => errno.ENOTDIR
  | IsADirectory => errno.EISDIR
  | Tombstoned => errno.ENOENT
  end.

(** Modelled from the spec: the message of each error of [data.py]; the
    wording is not fixed by the spec. *)
Definition message_of (e : error) : string :=
  match e with
  | NotFound => "No such file or directory"
  | AlreadyExists => "File or directory exists"
  | NotEmpty => "Directory not empty"
  | StaleData => "Stale data"
  | InvalidArgument => "Invalid argument"
  | NotADirectory => "Not a directory"
  | IsADirectory => "Is a directory"
  | Tombstoned => "Data is deleted"
  end.

(** Modelled from the spec: the result object [data.py] returns on error:
    [{error, errno}] (section 6). *)
Definition failure (e : error) : dict := errno_result (message_of e) (errno_of e).

(** Modelled from the spec: the outcome of a step of [data.py] that may
    fail with one of the errors above. *)
Inductive result (A : Type) :=
| Ok (a : A)
| Err (e : error).
Arguments Ok {A} a.
Arguments Err {A} e.

(** Modelled from the spec: an inode of [data.py] as the drivers hold it
    (section 3), keyed by its uuid in the store. *)
Record inode := {
  i_owner : string;
  i_version : nat;
  i_data : payload
}.

(** Modelled from the spec: everything outside [actions.py] that the
    commands read or write: the local endpoint, the local files, the
    device registry, the datastore records and the storage drivers. *)
Record world := {
  api_running : bool;
  local_files : gmap string (option string);
  local_device : string;
  default_devices : list string;
  default_drivers : list string;
  datastores : gmap string datastore;
  (* uuid -> the inode the drivers serve for it *)
  served : gmap string inode;
  (* (uuid, device) -> the last version that device recorded *)
  versions : gmap (string * string) nat;
  tombstones : gset (string * string);
  (* whether a driver really drops the bytes on delete *)
  drivers_delete : bool
}.

(** The world with the store, the datastore records or the tombstones
    replaced. *)
Definition with_store (w : world) (s : gmap string inode)
    (v : gmap (string * string) nat) : world :=
  {| api_running := api_running w; local_files := local_files w;
     local_device := local_device w; default_devices := default_devices w;
     default_drivers := default_drivers w; datastores := datastores w;
     served := s; versions := v; tombstones := tombstones w;
     drivers_delete := drivers_delete w |}.

Definition with_tombstones (w : world) (t : gset (string * string)) : world :=
  {| api_running := api_running w; local_files := local_files w;
     local_device := local_device w; default_devices := default_devices w;
     default_drivers := default_drivers w; datastores := datastores w;
     served := served w; versions := versions w; tombstones := t;
     drivers_delete := drivers_delete w |}.

Definition with_datastores (w : world) (d : gmap string datastore) : world :=
  {| api_running := api_running w; local_files := local_files w;
     local_device := local_device w; default_devices := default_devices w;
     default_drivers := default_drivers w; datastores := d;
     served := served w; versions := versions w; tombstones := tombstones w;
     drivers_delete := drivers_delete w |}.

(** *** Identity (section 4.1) *)

(** Modelled from the spec: [get_pubkey_hex] of [keys.py] and
    [datastore_get_id] of [data.py], as injective functions of the key. *)
Definition get_pubkey_hex (privkey : string) : string := "pub:" ++ privkey.

(** Modelled from the spec: [datastore_get_id] of [data.py], the
    deterministic hash of the public key, taken collision free. *)
Definition datastore_get_id (pubkey : string) : string := "id:" ++ pubkey.

(** *** Version reconciler (section 4.3) *)

(** Modelled from the spec: the last version a device recorded for a
    data id, as the version reconciler of [data.py] queries it; a miss
    counts as 0. *)
Definition recorded_version (w : world) (uuid dev : string) : nat :=
  default 0%nat (versions w !! (uuid, dev)).

(** Modelled from the spec: [current_version] of the version reconciler
    of [data.py]: the maximum over the devices. *)
Definition current_version (w : world) (uuid : string) (devs : list string) : nat :=
  foldr (λ d acc, Nat.max (recorded_version w uuid d) acc) 0%nat devs.

(** Modelled from the spec: [next_version] of the version reconciler of
    [data.py]: [current_version + 1]. *)
Definition next_version (w : world) (uuid : string) (devs : list string) : nat :=
  S (current_version w uuid devs).

(** *** Tombstones (section 4.7) *)

(** Modelled from the spec: [make_tombstones] of the tombstone manager of
    [data.py]: one tombstone per device. *)
Definition make_tombstones (uuid : string) (devs : list string)
    : list (string * string) :=
  (λ d, (uuid, d)) <$> devs.

(** Modelled from the spec: [is_tombstoned] of the tombstone manager of
    [data.py]. *)
Definition is_tombstoned (w : world) (uuid dev : string) : bool :=
  bool_decide ((uuid, dev) ∈ tombstones w).

(** Modelled from the spec: the tombstones of a deleted inode written
    out, for every device of the device set (section 3, invariants). *)
Definition put_tombstones (w : world) (uuid : string) (devs : list string) : world :=
  with_tombstones w (list_to_set (make_tombstones uuid devs) ∪ tombstones w).

(** *** Inode store (section 4.4) *)

(** Modelled from the spec: [load_inode] of the inode store of [data.py]. *)
Definition load_inode (w : world) (devs : list string) (uuid : string)
    (force : bool) : result inode :=
  match served w !! uuid with
  | None => Err NotFound
  | Some i =>
      if negb force && existsb (is_tombstoned w uuid) devs then Err Tombstoned
      else if negb force && (i_version i <? current_version w uuid devs)%nat
      then Err StaleData
      else Ok i
  end.

(** Modelled from the spec: [save_inode] of the inode store of [data.py]:
    the payload is written under the next version, which this device
    records. *)
Definition save_inode (w : world) (devs : list string) (uuid owner : string)
    (data : payload) : world :=
  let v := next_version w uuid devs in
  with_store w
    (<[ uuid := {| i_owner := owner; i_version := v; i_data := data |} ]> (served w))
    (<[ (uuid, local_device w) := v ]> (versions w)).

(** Modelled from the spec: the uuids [create_inode] of [data.py] may not
    reuse: those in the store, in a version record or in a tombstone. *)
Definition used_uuids (w : world) : gset string :=
  dom (served w) ∪ set_map fst (dom (versions w)) ∪ set_map fst (tombstones w).

(** Modelled from the spec: the uuid [create_inode] of [data.py]
    allocates. *)
Definition fresh_uuid (w : world) : string :=
  fresh_string_of_set "inode" (used_uuids w).

(** Modelled from the spec: dropping the bytes of a deleted inode, which a
    driver may or may not do (section 6). *)
Definition drop_bytes (w : world) (uuid : string) : world :=
  if drivers_delete w then with_store w (delete uuid (served w)) (versions w)
  else w.

(** *** Path resolver (section 4.5) *)

(** Modelled from the spec: the segments of a path: split on [/], empty
    segments discarded. *)
Definition split_path (path : string) : list string :=
  filter (λ s, s ≠ EmptyString) (split "/" path).

(** Modelled from the spec: the walk of [resolve] from a directory along
    the segments. *)
Fixpoint walk (w : world) (devs : list string) (force : bool)
    (cur : string * inode) (segs : list string) : result (string * inode) :=
  match segs with
  | [] => Ok cur
  | s :: rest =>
      match i_data cur.2 with
      | FileData _ => Err NotADirectory
      | DirData es =>
          match es !! s with
          | None => Err NotFound
          | Some de =>
              match load_inode w devs (de_uuid de) force with
              | Err e => Err e
              | Ok child => walk w devs force (de_uuid de, child) rest
              end
          end
      end
  end.

(** Modelled from the spec: the type test of [data.py] on a datastore
    record (section 3). *)
Definition is_collection (ds : datastore) : bool :=
  String.eqb (ds_type ds) "collection".

(** Modelled from the spec: the restriction of the path resolver on
    collections: one segment directly under the root, at most. *)
Definition too_deep (ds : datastore) (segs : list string) : bool :=
  is_collection ds && (1 <? length segs)%nat.

(** Modelled from the spec: [resolve] of the path resolver of [data.py]. *)
Definition resolve (w : world) (ds : datastore) (segs : list string)
    (force : bool) : result (string * inode) :=
  if too_deep ds segs then Err InvalidArgument
  else
    match load_inode w (ds_device_ids ds) (ds_root_uuid ds) force with
    | Err e => Err e
    | Ok root => walk w (ds_device_ids ds) force (ds_root_uuid ds, root) segs
    end.

(** Modelled from the spec: the segments before the leaf and the leaf,
    where [resolve_parent] stops one segment short. *)
Fixpoint split_last (segs : list string) : option (list string * string) :=
  match segs with
  | [] => None
  | [s] => Some ([], s)
  | s :: rest =>
      match split_last rest with
      | Some (init, leaf) => Some (s :: init, leaf)
      | None => None
      end
  end.

(** Modelled from the spec: [resolve_parent] of the path resolver: the
    directory that holds the leaf, its entries, and the leaf name. *)
Definition resolve_parent (w : world) (ds : datastore) (segs : list string)
    (force : bool) : result (string * inode * gmap string dirent * string) :=
  match split_last segs with
  | None => Err InvalidArgument
  | Some (init, leaf) =>
      if too_deep ds segs then Err InvalidArgument
      else
        match load_inode w (ds_device_ids ds) (ds_root_uuid ds) force with
        | Err e => Err e
        | Ok root =>
            match walk w (ds_device_ids ds) force (ds_root_uuid ds, root) init with
            | Err e => Err e
            | Ok (pu, pi) =>
                match i_data pi with
                | FileData _ => Err NotADirectory
                | DirData es => Ok (pu, pi, es, leaf)
                end
            end
        end
  end.

(** *** Operations (section 4.6) *)

(** Modelled from the spec: the inode metadata [data.py] reports, with
    the payload when asked for. *)
Definition inode_result (uuid : string) (i : inode) (idata : bool) : pyval :=
  PInode {| ii_uuid := uuid; ii_type := payload_type (i_data i);
            ii_version := i_version i;
            ii_idata := if idata then Some (i_data i) else None |}.

(** Modelled from the spec: [datastore_getfile] of [data.py] (row
    [getfile]). *)
Definition datastore_getfile (ds : datastore) (path : string)
    (extended force : bool) (w : world) : dict * world :=
  match resolve w ds (split_path path) force with
  | Err e => (failure e, w)
  | Ok (u, i) =>
      match i_data i with
      | DirData _ => (failure IsADirectory, w)
      | FileData _ => (<[ "file" := inode_result u i true ]> status_true, w)
      end
  end.

(** Modelled from the spec: [datastore_listdir] of [data.py] (row
    [listdir]). *)
Definition datastore_listdir (ds : datastore) (path : string)
    (extended force : bool) (w : world) : dict * world :=
  match resolve w ds (split_path path) force with
  | Err e => (failure e, w)
  | Ok (u, i) =>
      match i_data i with
      | FileData _ => (failure NotADirectory, w)
      | DirData _ => (<[ "dir" := inode_result u i true ]> status_true, w)
      end
  end.

(** Modelled from the spec: [datastore_stat] of [data.py] (row [stat]). *)
Definition datastore_stat (ds : datastore) (path : string)
    (extended force idata : bool) (w : world) : dict * world :=
  match resolve w ds (split_path path) force with
  | Err e => (failure e, w)
  | Ok (u, i) => (<[ "inode" := inode_result u i idata ]> status_true, w)
  end.

(** Modelled from the spec: [datastore_getinode] of [data.py] (row
    [getinode]). *)
Definition datastore_getinode (ds : datastore) (inode_uuid : string)
    (idata : bool) (w : world) : dict * world :=
  match load_inode w (ds_device_ids ds) inode_uuid false with
  | Err e => (failure e, w)
  | Ok i => (<[ "inode" := inode_result inode_uuid i idata ]> status_true, w)
  end.

(** Modelled from the spec: [datastore_putfile] of [data.py] (row
    [putfile]): the file inode is created or overwritten under the next
    version; a new file is entered in its parent, which is saved. *)
Definition datastore_putfile (ds : datastore) (path : string) (data : pyval)
    (privkey : string) (create force : bool) (w : world) : dict * world :=
  let devs := ds_device_ids ds in
  let owner := get_pubkey_hex privkey in
  match data with
  | PStr bytes =>
      match resolve_parent w ds (split_path path) force with
      | Err e => (failure e, w)
      | Ok (pu, pi, es, leaf) =>
          match es !! leaf with
          | Some de =>
              if create then (failure AlreadyExists, w)
              else
                match load_inode w devs (de_uuid de) force with
                | Err e => (failure e, w)
                | Ok ci =>
                    match i_data ci with
                    | DirData _ => (failure IsADirectory, w)
                    | FileData _ =>
                        (status_true,
                         save_inode w devs (de_uuid de) owner (FileData bytes))
                    end
                end
          | None =>
              let u := fresh_uuid w in
              let w1 := save_inode w devs u owner (FileData bytes) in
              let entry := {| de_uuid := u; de_type := MUTABLE_DATUM_FILE_TYPE |} in
              (status_true,
               save_inode w1 devs pu (i_owner pi) (DirData (<[ leaf := entry ]> es)))
          end
      end
  | _ => (failure InvalidArgument, w)
  end.

(** Modelled from the spec: [datastore_mkdir] of [data.py] (row [mkdir]). *)
Definition datastore_mkdir (ds : datastore) (path privkey : string)
    (w : world) : dict * world :=
  let devs := ds_device_ids ds in
  match resolve_parent w ds (split_path path) false with
  | Err e => (failure e, w)
  | Ok (pu, pi, es, leaf) =>
      match es !! leaf with
      | Some _ => (failure AlreadyExists, w)
      | None =>
          let u := fresh_uuid w in
          let w1 := save_inode w devs u (get_pubkey_hex privkey) (DirData ∅) in
          let entry := {| de_uuid := u; de_type := MUTABLE_DATUM_DIR_TYPE |} in
          (status_true,
           save_inode w1 devs pu (i_owner pi) (DirData (<[ leaf := entry ]> es)))
      end
  end.

(** Modelled from the spec: the removal of a leaf, shared by [deletefile]
    and [rmdir]: a tombstone for every device of the device set, the
    entry taken out of the parent, the parent saved. *)
Definition remove_leaf (w : world) (devs : list string) (pu : string) (pi : inode)
    (es : gmap string dirent) (leaf child : string) : world :=
  let w1 := put_tombstones w child devs in
  let w2 := save_inode w1 devs pu (i_owner pi) (DirData (delete leaf es)) in
  drop_bytes w2 child.

(** Modelled from the spec: [datastore_deletefile] of [data.py] (row
    [deletefile]). *)
Definition datastore_deletefile (ds : datastore) (path privkey : string)
    (force : bool) (w : world) : dict * world :=
  let devs := ds_device_ids ds in
  match resolve_parent w ds (split_path path) force with
  | Err e => (failure e, w)
  | Ok (pu, pi, es, leaf) =>
      match es !! leaf with
      | None => (failure NotFound, w)
      | Some de =>
          match load_inode w devs (de_uuid de) force with
          | Err e => (failure e, w)
          | Ok ci =>
              match i_data ci with
              | DirData _ => (failure IsADirectory, w)
              | FileData _ =>
                  (status_true, remove_leaf w devs pu pi es leaf (de_uuid de))
              end
          end
      end
  end.

(** Modelled from the spec: [datastore_rmdir] of [data.py] (row [rmdir]). *)
Definition datastore_rmdir (ds : datastore) (path privkey : string)
    (force : bool) (w : world) : dict * world :=
  let devs := ds_device_ids ds in
  match resolve_parent w ds (split_path path) force with
  | Err e => (failure e, w)
  | Ok (pu, pi, es, leaf) =>
      match es !! leaf with
      | None => (failure NotFound, w)
      | Some de =>
          match load_inode w devs (de_uuid de) force with
          | Err e => (failure e, w)
          | Ok ci =>
              match i_data ci with
              | FileData _ => (failure NotADirectory, w)
              | DirData ces =>
                  if bool_decide (ces = ∅) then
                    (status_true, remove_leaf w devs pu pi es leaf (de_uuid de))
                  else (failure NotEmpty, w)
              end
          end
      end
  end.

(** Modelled from the spec: the recursion of [datastore_rmtree]: every
    descendant is tombstoned, children first; the first failing child
    stops the walk and what was tombstoned so far stays so. The depth is
    bounded by [fuel]; a tree deeper than that is reported as not
    emptied. *)
Fixpoint rmtree_inode (fuel : nat) (devs : list string) (uuid : string)
    (w : world) : world * option error :=
  match fuel with
  | O => (w, Some NotEmpty)
  | S fuel =>
      match load_inode w devs uuid false with
      | Err e => (w, Some e)
      | Ok i =>
          let children :=
            match i_data i with
            | FileData _ => []
            | DirData es => (λ kv, de_uuid kv.2) <$> map_to_list es
            end in
          let r :=
            foldl (λ acc child,
                     match acc with
                     | (w', None) => rmtree_inode fuel devs child w'
                     | (w', Some e) => (w', Some e)
                     end)
                  (w, None) children in
          match r with
          | (w', None) => (drop_bytes (put_tombstones w' uuid devs) uuid, None)
          | (w', Some e) => (w', Some e)
          end
      end
  end.

(** Modelled from the spec: [datastore_rmtree] of [data.py] (row
    [rmtree]). On the root the entries are emptied; elsewhere the top
    entry is removed from its parent. No inode of a tree lies deeper than
    the number of inodes served. *)
Definition datastore_rmtree (ds : datastore) (path privkey : string)
    (w : world) : dict * world :=
  let devs := ds_device_ids ds in
  let fuel := S (size (served w)) in
  match split_path path with
  | [] =>
      match load_inode w devs (ds_root_uuid ds) false with
      | Err e => (failure e, w)
      | Ok root =>
          match i_data root with
          | FileData _ => (failure NotADirectory, w)
          | DirData es =>
              let r :=
                foldl (λ acc child,
                         match acc with
                         | (w', None) => rmtree_inode fuel devs child w'
                         | (w', Some e) => (w', Some e)
                         end)
                      (w, None) ((λ kv, de_uuid kv.2) <$> map_to_list es) in
              match r with
              | (w', Some e) => (failure e, w')
              | (w', None) =>
                  (status_true,
                   save_inode w' devs (ds_root_uuid ds) (i_owner root) (DirData ∅))
              end
          end
      end
  | segs =>
      match resolve_parent w ds segs false with
      | Err e => (failure e, w)
      | Ok (pu, pi, es, leaf) =>
          match es !! leaf with
          | None => (failure NotFound, w)
          | Some de =>
              match rmtree_inode fuel devs (de_uuid de) w with
              | (w', Some e) => (failure e, w')
              | (w', None) =>
                  (status_true,
                   save_inode w' devs pu (i_owner pi) (DirData (delete leaf es)))
              end
          end
      end
  end.

(** *** Datastore records (section 6) *)

(** Modelled from the spec: the datastore handle [rpc.py] hands out: the
    record with the device list of the caller, or the registered devices
    when the caller names none. *)
Definition handle_of (w : world) (ds : datastore)
    (device_ids : option (list string)) : datastore :=
  {| ds_type := ds_type ds; ds_pubkey := ds_pubkey ds;
     ds_root_uuid := ds_root_uuid ds; ds_drivers := ds_drivers ds;
     ds_device_ids := default (default_devices w) device_ids |}.

(** Modelled from the spec: [backend_datastore_get] of the local endpoint
    of [rpc.py]. *)
Definition backend_datastore_get (w : world) (datastore_id : string)
    (device_ids : option (list string)) : dict :=
  match datastores w !! datastore_id with
  | None => failure NotFound
  | Some ds => {[ "datastore" := PDatastore (handle_of w ds device_ids) ]}
  end.

(** Modelled from the spec: [make_datastore_info] of [data.py]: a record
    of one of the two types, with a fresh root. *)
Definition make_datastore_info (w : world) (datastore_type pubkey : string)
    (drivers : option (list string)) : dict :=
  if in_list datastore_type ["datastore"; "collection"] then
    {[ "datastore" :=
         PDatastore {| ds_type := datastore_type; ds_pubkey := pubkey;
                       ds_root_uuid := fresh_uuid w;
                       ds_drivers := default (default_drivers w) drivers;
                       ds_device_ids := default_devices w |} ]}
  else failure InvalidArgument.

(** Modelled from the spec: [put_datastore] of [data.py]: the record is
    stored under the id of its key and its empty root is saved. *)
Definition put_datastore (info : dict) (privkey : string) (w : world)
    : dict * world :=
  match info !! "datastore" with
  | Some (PDatastore ds) =>
      let w1 :=
        save_inode w (ds_device_ids ds) (ds_root_uuid ds) (ds_pubkey ds) (DirData ∅) in
      (status_true,
       with_datastores w1 (<[ datastore_get_id (ds_pubkey ds) := ds ]> (datastores w1)))
  | _ => (failure InvalidArgument, w)
  end.

(** Modelled from the spec: [delete_datastore] of [data.py]: the root is
    tombstoned and the record of the key is removed. *)
Definition delete_datastore (ds : datastore) (privkey : string) (w : world)
    : dict * world :=
  let w1 := put_tombstones w (ds_root_uuid ds) (ds_device_ids ds) in
  (status_true,
   with_datastores w1
     (delete (datastore_get_id (get_pubkey_hex privkey)) (datastores w1))).

(** Modelled from the spec: the modules [actions.py] calls into, put
    together: [data.py] and [rpc.py] as above, [get_default_proxy] of
    [proxy.py] and [get_secret] as constants, and the local file system
    as the table [local_files]. *)
Definition backend : Backend world :=
  {| Api.get_pubkey_hex := get_pubkey_hex;
     Api.datastore_get_id := datastore_get_id;
     get_default_proxy := λ _, PStr "proxy";
     get_secret := λ _ _, PNone;
     os_path_exists := λ w p, bool_decide (is_Some (local_files w !! p));
     open_read := λ w p, mjoin (local_files w !! p);
     local_api_connect := api_running;
     Api.backend_datastore_get := backend_datastore_get;
     Api.make_datastore_info := make_datastore_info;
     Api.put_datastore := put_datastore;
     Api.delete_datastore := delete_datastore;
     Api.datastore_mkdir := datastore_mkdir;
     Api.datastore_rmdir := datastore_rmdir;
     Api.datastore_rmtree := datastore_rmtree;
     Api.datastore_getfile := datastore_getfile;
     Api.datastore_putfile := datastore_putfile;
     Api.datastore_deletefile := datastore_deletefile;
     Api.datastore_listdir := datastore_listdir;
     Api.datastore_stat := datastore_stat;
     Api.datastore_getinode := datastore_getinode |}.

(** *** Notions used to state the properties of the model *)

Definition is_dir (i : inode) : Prop :=
  payload_type (i_data i) = MUTABLE_DATUM_DIR_TYPE.

(** The inode read at [u] once the directory [P] has been replaced by
    [pi']. *)
Definition img (P : string) (pi' : inode) (u : string) (i : inode) : inode :=
  if decide (u = P) then pi' else i.

(** What no operation on inodes changes. *)
Definition same_config (w w' : world) : Prop :=
  api_running w' = api_running w ∧ local_files w' = local_files w ∧
  local_device w' = local_device w ∧ default_devices w' = default_devices w ∧
  default_drivers w' = default_drivers w ∧ datastores w' = datastores w.

End SpecData.

(** ** The options of a command, as functions of the attribute

    What [opt_flag] and [opt_device_ids] compute from the value of the
    attribute; [None] stands for the [AttributeError] of calling a string
    method on a value that is not a string. *)

Definition flag_of (a : option pyval) : option bool :=
  match a with
  | None => Some false
  | Some (PStr s) => Some (in_list (lower s) ["1"; "true"])
  | Some _ => None
  end.

Definition devs_of (a : option pyval) : option (option (list string)) :=
  match a with
  | None => Some None
  | Some v =>
      if py_truthy v then
        match v with
        | PStr s => Some (Some (split "," s))
        | _ => None
        end
      else Some None
  end.

(** What [datastore_file_put] hands to the data module for [data]: the
    content of the local file that [data] names, when [data] is a valid
    path of an existing file and [force_data] is not set, and [data]
    itself otherwise; [None] when reading the file fails. *)
Definition stored_data {W} (B : Backend W) (w : W) (data : pyval)
    (force_data : bool) : option pyval :=
  if is_valid_path data && os_path_exists B w (py_str data) && negb force_data
  then PStr <$> open_read B w (py_str data)
  else Some data.


(** ** Worlds used as examples *)

Module Examples.
Import SpecData.

Definition key : string := "k".
Definition id : string := datastore_get_id (get_pubkey_hex key).

(** Nothing stored yet; one local file. *)
Definition w_empty : world :=
  {| api_running := true;
     local_files := {[ "/etc/hostname" := Some "laptop.local" ]};
     local_device := "laptop"; default_devices := ["laptop"; "phone"];
     default_drivers := ["disk"]; datastores := ∅; served := ∅; versions := ∅;
     tombstones := ∅; drivers_delete := false |}.

(** After [create_datastore]. *)
Definition w_created : world :=
  final_world (cli_create_datastore backend {[ "privkey" := PStr key ]} w_empty).

Definition putfile_args (path data : string) : dict :=
  {[ "privkey" := PStr key; "path" := PStr path; "data" := PStr data ]}.
Definition path_args (path : string) : dict :=
  {[ "datastore_id" := PStr id; "path" := PStr path ]}.
Definition deletefile_args (path : string) : dict :=
  {[ "privkey" := PStr key; "path" := PStr path ]}.

(** After [putfile /notes hello]. *)
Definition w_file : world :=
  final_world (cli_datastore_putfile backend (putfile_args "/notes" "hello") false
                 w_created).

(** The datastore with a root that the phone has rewritten since: the
    root the drivers serve is stale. *)
Definition w_stale : world :=
  with_store w_created (served w_created)
    (<[ (fresh_uuid w_empty, "phone") := 7%nat ]> (versions w_created)).

(** A collection under the same key. *)
Definition w_collection : world :=
  final_world (create_datastore_by_type backend "collection" key None w_empty).

(** The record of the datastore of [w_created]. *)
Definition ds_created : datastore :=
  {| ds_type := "datastore"; ds_pubkey := get_pubkey_hex key;
     ds_root_uuid := fresh_uuid w_empty; ds_drivers := ["disk"];
     ds_device_ids := ["laptop"; "phone"] |}.

(** After [putfile /notes /etc/hostname], without [force_data]. *)
Definition w_hostname : world :=
  final_world (cli_datastore_putfile backend (putfile_args "/notes" "/etc/hostname")
                 false w_created).




End Examples.

(** ** More of [actions.py]

    The remaining datastore and collection commands, the commands on the
    device list, and [is_valid_path] as the source writes it. *)

Module SigMore.
Definition get_datastore_by_type : pysig :=
  {| params := ["datastore_type"; "datastore_id"; "config_path"; "device_ids"];
     required := 2 |}.
End SigMore.

(** [string.printable] of the Python 2 library: digits, letters,
    punctuation, whitespace. *)
Definition string_digits : string := "0123456789".
Definition string_letters : string :=
  "abcdefghijklmnopqrstuvwxyz" ++ "ABCDEFGHIJKLMNOPQRSTUVWXYZ".
Definition string_punctuation : string :=
  "!" ++ dquote ++ "#$%&'()*+,-./:;<=>?@[\]^_`{|}~".
Definition string_whitespace : list ascii :=
  ascii_of_nat <$> [9; 10; 11; 12; 13; 32]%nat.
Definition string_printable : list ascii :=
  (list_ascii_of_string (string_digits ++ string_letters ++ string_punctuation)
   ++ string_whitespace)%list.

(** [set(string.printable) - set("\t\n\r\x0b\x0c")] *)
Definition valid_chars : list ascii :=
  filter (λ c, c ∉ (ascii_of_nat <$> [9; 10; 13; 11; 12]%nat)) string_printable.

(** [filter(f, s)] on a [str]. *)
Fixpoint filter_str (f : ascii → bool) (s : string) : string :=
  match s with
  | EmptyString => EmptyString
  | String c r => if f c then String c (filter_str f r) else filter_str f r
  end.

(** [is_valid_path] step by step as the source has it: the characters of
    [path] that are in [valid_chars] are kept, and what is left is
    compared with [path]. *)
Definition is_valid_path_src (path : pyval) : bool :=
  match path with
  | PStr s =>
      let filtered_string := filter_str (λ x, bool_decide (x ∈ valid_chars)) s in
      String.eqb filtered_string s
  | _ => false
  end.

Section ActionsMore.
Context {W : Type} (B : Backend W).

Local Abbreviation M := (Py.M W).

(** [get_datastore_by_type] returns the datastore object itself on
    success ([inr]) and an error object otherwise ([inl]). *)
Definition get_datastore_by_type (datastore_type datastore_id : string)
    (device_ids : option (list string)) : M (dict + datastore) :=
  rpc ← ask (local_api_connect B);
  if negb rpc then mret (inl api_not_running)
  else
    datastore_info ← ask (λ w, backend_datastore_get B w datastore_id device_ids);
    if dict_has datastore_info "error" then mret (inl datastore_info)
    else
      ds ← dict_item datastore_info "datastore" ≫= as_datastore;
      if negb (String.eqb (ds_type ds) datastore_type) then
        mret (inl (error_result (is_a datastore_id (ds_type ds))))
      else mret (inr ds).

Definition cli_get_datastore (args : dict) : M (dict + datastore) :=
  datastore_id ← str_attr args "datastore_id";
  (* [device_ids = []], not [None] *)
  device_ids ←
    (if hasattr args "device_ids" then
       v ← getattr args "device_ids";
       if py_truthy v then py_split_csv v else mret []
     else mret []);
  py_call SigMore.get_datastore_by_type 2 ["device_ids"; "config_path"]
    (get_datastore_by_type "datastore" datastore_id (Some device_ids)).

Definition cli_get_collection (args : dict) : M (dict + datastore) :=
  collection_domain ← str_attr args "collection_name";
  py_call SigMore.get_datastore_by_type 2 ["config_path"]
    (get_datastore_by_type "collection" collection_domain None).

Definition cli_create_collection (args : dict)
    (proxy password master_data_privkey : pyval) : M dict :=
  proxy ← (match proxy with PNone => ask (get_default_proxy B) | _ => mret proxy end);
  password ← get_default_password B password;
  collection_domain ← str_attr args "collection_domain";
  py_call Sig.create_datastore_by_type 2
    ["proxy"; "config_path"; "password"; "master_data_privkey"]
    (create_datastore_by_type B "collection" collection_domain None).

Definition cli_delete_collection (args : dict)
    (proxy password master_data_privkey : pyval) : M dict :=
  proxy ← (match proxy with PNone => ask (get_default_proxy B) | _ => mret proxy end);
  password ← get_default_password B password;
  collection_domain ← str_attr args "collection_domain";
  (* [master_data_privkey] is the third positional argument, where the
     callee has [force]; [force=True] is given as a keyword as well *)
  py_call Sig.delete_datastore_by_type 3 ["force"; "config_path"; "proxy"; "password"]
    (delete_datastore_by_type B "collection" collection_domain
       (py_truthy master_data_privkey)).

End ActionsMore.

(** *** The device list

    [get_all_device_ids] and [write_config_field] of [config.py] are not
    among the sources; both are parameters, and either may fail its
    [assert].  The order in which a Python [set] lists its elements is a
    parameter too. *)

Module Cfg.
Record Config (W : Type) := {
  (* [None]: [AssertionError] *)
  get_all_device_ids : W → option (list string);
  (* section, field, value; [false]: [AssertionError] *)
  write_config_field : string → string → string → W → bool * W;
  (* [list(set(l))] *)
  set_to_list : list string → list string
}.
Arguments get_all_device_ids {W} _ _.
Arguments write_config_field {W} _ _ _ _ _.
Arguments set_to_list {W} _ _.
End Cfg.
Export Cfg.

(** [l.remove(x)]: the first occurrence goes. *)
Fixpoint list_remove_first (x : string) (l : list string) : list string :=
  match l with
  | [] => []
  | y :: r => if String.eqb x y then r else y :: list_remove_first x r
  end.

Section DeviceIds.
Context {W : Type} (C : Config W).

Local Abbreviation M := (Py.M W).

(** [try: body except AssertionError: handler] *)
Definition try_except_assertion {A} (body handler : M A) : M A :=
  λ w, match body w with
       | Raised AssertionError w' => handler w'
       | o => o
       end.

Definition read_device_ids : M (list string) :=
  λ w, match get_all_device_ids C w with
       | Some l => Returned l w
       | None => Raised AssertionError w
       end.

Definition write_default_devices (device_id_str : string) : M unit :=
  ok ← call (write_config_field C "blockstack-client" "default_devices" device_id_str);
  if (ok : bool) then mret tt else raise AssertionError.

Definition cli_add_device_id (args : dict) : M dict :=
  try_except_assertion
    (device_ids ← read_device_ids;
     device_id ← str_attr args "device_id";
     let device_id_str :=
       String.concat "," (set_to_list C (device_ids ++ [device_id])%list) in
     _ ← write_default_devices device_id_str;
     mret status_true)
    (mret (error_result "Failed to add device")).

Definition cli_remove_device_id (args : dict) : M dict :=
  try_except_assertion
    (device_id ← str_attr args "device_id";
     device_ids ← read_device_ids;
     if negb (in_list device_id device_ids) then mret status_true
     else
       let device_ids := list_remove_first device_id device_ids in
       let device_id_str := String.concat "," device_ids in
       _ ← write_default_devices device_id_str;
       mret status_true)
    (mret (error_result "Failed to remove device")).

End DeviceIds.

(** ** Well-formed replies and arguments *)

(** A reply of the lookup of a datastore: an error, or a datastore
    record under ['datastore']. *)
Definition reply_ok (info : dict) : Prop :=
  is_Some (info !! "error") ∨ ∃ ds, info !! "datastore" = Some (PDatastore ds).

Definition replies_ok {W} (B : Backend W) : Prop :=
  ∀ w datastore_id device_ids,
    reply_ok (backend_datastore_get B w datastore_id device_ids).

(** A Python [set] lists each element once. *)
Definition set_semantics {W} (C : Config W) : Prop :=
  ∀ l, NoDup (set_to_list C l) ∧ ∀ x, x ∈ set_to_list C l ↔ x ∈ l.

(** A configuration kept in memory: the device list itself. *)
Definition list_config : Config (list string) :=
  {| get_all_device_ids := λ w, Some w;
     write_config_field := λ _ _ v w, (true, split "," v);
     set_to_list := remove_dups |}.

(** A configuration that cannot be read or written. *)
Definition no_config : Config unit :=
  {| get_all_device_ids := λ _, None;
     write_config_field := λ _ _ _ w, (false, w);
     set_to_list := remove_dups |}.

Module MoreExamples.
Import SpecData Examples.

(** [w_created], the endpoint stopped. *)
Definition w_down : world :=
  {| api_running := false;
     local_files := local_files w_created; local_device := local_device w_created;
     default_devices := default_devices w_created;
     default_drivers := default_drivers w_created;
     datastores := datastores w_created; served := served w_created;
     versions := versions w_created; tombstones := tombstones w_created;
     drivers_delete := drivers_delete w_created |}.

(** [w_created] with a local file that exists and cannot be read. *)
Definition w_locked : world :=
  {| api_running := true;
     local_files := <[ "/etc/shadow" := None ]> (local_files w_created);
     local_device := local_device w_created;
     default_devices := default_devices w_created;
     default_drivers := default_drivers w_created;
     datastores := datastores w_created; served := served w_created;
     versions := versions w_created; tombstones := tombstones w_created;
     drivers_delete := drivers_delete w_created |}.

(** A device list that names the laptop twice. *)
Definition devices : list string := ["laptop"; "phone"; "laptop"].
Definition device_args (d : string) : dict := {[ "device_id" := PStr d ]}.


(** The collection of [w_collection] after [/notes] has been put through
    the entry point for datastores. *)
Definition w_collection_file : world :=
  final_world (datastore_file_put backend "datastore" key "/notes" (PStr "hello")
                 false false false None w_collection).

End MoreExamples.

(** * Properties *)

(** ** Running the commands *)

Ltac unfold_py :=
  unfold str_attr, opt_flag, opt_device_ids, getattr, py_lower, py_split_csv,
    read_local, get_default_password, py_call, raise, ask, call,
    dict_item, as_datastore,
    mbind, M_bind, mret, M_ret, fmap, M_fmap in *; simpl.

Ltac run_step :=
  match goal with
  | |- context [match ?m !! ?k with _ => _ end] =>
      let E := fresh "E" in destruct (m !! k) eqn:E; simpl
  | |- context [if hasattr ?a ?k then _ else _] =>
      let E := fresh "E" in destruct (hasattr a k) eqn:E; simpl
  | |- context [match ?v with PNone => _ | _ => _ end] =>
      destruct v; simpl
  | |- context [if ?b then _ else _] =>
      let E := fresh "E" in destruct b eqn:E; simpl
  end.

Section Commands.
Context {W : Type} (B : Backend W).

Lemma str_attr_eq (args : dict) name (w : W) :
  str_attr args name w =
  match args !! name with
  | Some v => Returned (py_str v) w
  | None => Raised AttributeError w
  end.
Proof. unfold_py. by destruct (args !! name). Qed.

Lemma opt_flag_eq (args : dict) name (w : W) :
  opt_flag args name w =
  match flag_of (args !! name) with
  | Some b => Returned b w
  | None => Raised AttributeError w
  end.
Proof.
  unfold_py. unfold hasattr, flag_of.
  destruct (args !! name) as [[]|]; done.
Qed.

Lemma opt_device_ids_eq (args : dict) (w : W) :
  opt_device_ids args w =
  match devs_of (args !! "device_ids") with
  | Some d => Returned d w
  | None => Raised AttributeError w
  end.
Proof.
  unfold_py. unfold hasattr, devs_of.
  destruct (args !! "device_ids") as [v|]; [|done]. simpl.
  destruct (py_truthy v); [|done]. by destruct v.
Qed.

Lemma dict_has_true (d : dict) k : dict_has d k = true ↔ is_Some (d !! k).
Proof. unfold dict_has. apply bool_decide_eq_true. Qed.

Lemma dict_has_false (d : dict) k : dict_has d k = false ↔ d !! k = None.
Proof.
  unfold dict_has. rewrite bool_decide_eq_false. by rewrite eq_None_not_Some.
Qed.

(** *** The collection commands and [getinode] never return *)

Lemma cli_collection_statitem_raises args proxy w :
  cli_collection_statitem B args proxy w = Raised UnboundLocalError w.
Proof. unfold cli_collection_statitem. unfold_py. by destruct proxy. Qed.

Lemma cli_collection_listitems_raises args password proxy w :
  ∃ e, cli_collection_listitems B args password proxy w = Raised e w.
Proof.
  unfold cli_collection_listitems. unfold_py.
  destruct proxy, password; simpl; repeat run_step; eauto.
Qed.

Lemma cli_collection_putitem_raises args proxy password force_data mk w :
  ∃ e, cli_collection_putitem B args proxy password force_data mk w = Raised e w.
Proof.
  unfold cli_collection_putitem. unfold_py. unfold getattr_default.
  destruct proxy, password; simpl; repeat run_step; eauto.
Qed.

Lemma cli_collection_getitem_raises args password proxy w :
  ∃ e, cli_collection_getitem B args password proxy w = Raised e w.
Proof.
  unfold cli_collection_getitem. unfold_py.
  destruct proxy, password; simpl; repeat run_step; eauto.
Qed.

Lemma cli_datastore_getinode_raises args w :
  ∃ e, cli_datastore_getinode B args w = Raised e w.
Proof.
  unfold cli_datastore_getinode. unfold_py. repeat run_step; eauto.
Qed.

End Commands.

(** ** Claims decided by [actions.py] alone *)

(** C1 (fails on the code).  The collection commands and [getinode] do
    not return a result object: for every backend, every [args] and every
    world, [cli_collection_statitem] raises [UnboundLocalError], and
    [cli_collection_listitems], [cli_collection_putitem],
    [cli_collection_getitem] and [cli_datastore_getinode] raise as well;
    with the documented arguments given, the last four raise [TypeError]
    when they call a helper with keywords it does not take. *)
Theorem C1_commands_raise :
  (∀ W (B : Backend W) args password proxy force_data master w,
      cli_collection_statitem B args proxy w = Raised UnboundLocalError w
      ∧ (∃ e, cli_collection_listitems B args password proxy w = Raised e w)
      ∧ (∃ e, cli_collection_putitem B args proxy password force_data master w
              = Raised e w)
      ∧ (∃ e, cli_collection_getitem B args password proxy w = Raised e w)
      ∧ (∃ e, cli_datastore_getinode B args w = Raised e w))
  ∧ (let w := Examples.w_collection in
     let B := SpecData.backend in
     cli_collection_listitems B
       {[ "collection_domain" := PStr Examples.id; "path" := PStr "/" ]} PNone PNone w
       = Raised TypeError w
     ∧ cli_collection_putitem B
         {[ "collection_domain" := PStr Examples.id; "item_id" := PStr "item";
            "data" := PStr "hello" ]} PNone PNone false PNone w
       = Raised TypeError w
     ∧ cli_collection_getitem B
         {[ "collection_domain" := PStr Examples.id; "item_id" := PStr "item" ]}
         PNone PNone w
       = Raised TypeError w
     ∧ cli_datastore_getinode B
         {[ "datastore_id" := PStr Examples.id; "inode_uuid" := PStr "inode" ]} w
       = Raised TypeError w).
Proof.
  split.
  - intros W B args password proxy force_data master w.
    split; [apply cli_collection_statitem_raises|].
    split; [apply cli_collection_listitems_raises|].
    split; [apply cli_collection_putitem_raises|].
    split; [apply cli_collection_getitem_raises|].
    apply cli_datastore_getinode_raises.
  - repeat split; reflexivity.
Qed.

(** C9.  Whenever [args] carries a [device_ids] attribute that is true in
    a condition (a non-empty string), [cli_datastore_getinode] raises
    [AttributeError], in the world it started in: no backend is reached
    and the value is forwarded to none. *)
Theorem C9_getinode_device_ids_raises {W} (B : Backend W) (args : dict) v w :
  args !! "device_ids" = Some v →
  py_truthy v = true →
  cli_datastore_getinode B args w = Raised AttributeError w.
Proof.
  intros Hv Ht. unfold cli_datastore_getinode. unfold_py.
  unfold hasattr. rewrite Hv. simpl. rewrite Ht.
  repeat run_step; eauto.
Qed.

Lemma C9_getinode_device_ids_witness :
  let args : dict := {[ "datastore_id" := PStr Examples.id;
                        "inode_uuid" := PStr "inode";
                        "device_ids" := PStr "laptop,phone" ]} in
  args !! "device_ids" = Some (PStr "laptop,phone")
  ∧ py_truthy (PStr "laptop,phone") = true
  ∧ cli_datastore_getinode SpecData.backend args Examples.w_created
    = Raised AttributeError Examples.w_created.
Proof.
  intros args. split; [reflexivity|]. split; [reflexivity|].
  apply (C9_getinode_device_ids_raises SpecData.backend args (PStr "laptop,phone"));
    reflexivity.
Defined.

(** C10.  [datastore_file_put] never looks at its [datastore_type]: the
    outcome is the same for any two types.  On a collection, a put
    through the ['datastore'] entry point goes through, where
    [datastore_file_get], [datastore_dir_list] and [datastore_path_stat]
    answer that the id is a collection. *)
Theorem C10_file_put_ignores_type :
  (∀ W (B : Backend W) dt1 dt2 privkey path data create force_data force
     device_ids w,
      datastore_file_put B dt1 privkey path data create force_data force device_ids w
      = datastore_file_put B dt2 privkey path data create force_data force device_ids w)
  ∧ (let w := Examples.w_collection in
     let B := SpecData.backend in
     let mismatch := is_a Examples.id "collection" in
     returned_value
       (datastore_file_put B "datastore" Examples.key "/item" (PStr "hello")
          false false false None w) = Some status_true
     ∧ datastore_file_get B "datastore" Examples.id "/item" false false None w
       = Returned (error_result mismatch) w
     ∧ datastore_dir_list B "datastore" Examples.id "/" false false None w
       = Returned (errno_result mismatch errno.EINVAL) w
     ∧ datastore_path_stat B "datastore" Examples.id "/item" false false false None w
       = Returned (error_result mismatch) w).
Proof.
  split; [reflexivity|]. repeat split; vm_compute; reflexivity.
Qed.

(** C3 (fails on the code).  The [force] option of [putfile] is parsed
    and dropped: the outcome of [cli_datastore_putfile] does not depend
    on the [force] attribute, and [datastore_file_put] runs the write
    without force whatever its [force] argument.  On a stale root the
    command fails with [EPERM] with [force] set, where the write of the
    data module, given force, succeeds. *)
Theorem C3_putfile_drops_force :
  (∀ W (B : Backend W) (args : dict) v force_data w,
      cli_datastore_putfile B (<[ "force" := v ]> args) force_data w
      = cli_datastore_putfile B (delete "force" args) force_data w)
  ∧ (∀ W (B : Backend W) dt privkey path data create force_data force device_ids w,
      datastore_file_put B dt privkey path data create force_data force device_ids w
      = datastore_file_put B dt privkey path data create force_data false device_ids w)
  ∧ (let w := Examples.w_stale in
     let args := <[ "force" := PStr "true" ]> (Examples.putfile_args "/notes" "hello") in
     cli_datastore_putfile SpecData.backend args false w
       = Returned (SpecData.failure SpecData.StaleData) w
     ∧ SpecData.failure SpecData.StaleData !! "errno" = Some (PInt errno.EPERM)
     ∧ ∃ ds, backend_datastore_get SpecData.backend w Examples.id None !! "datastore"
               = Some (PDatastore ds)
             ∧ (SpecData.datastore_putfile ds "/notes" (PStr "hello") Examples.key
                  false true w).1 = status_true).
Proof.
  split; [|split].
  - intros W B args v force_data w.
    unfold cli_datastore_putfile, getattr_default, opt_device_ids, hasattr,
      str_attr, getattr.
    rewrite !lookup_insert_ne by done. rewrite !lookup_delete_ne by done.
    reflexivity.
  - reflexivity.
  - split; [vm_compute; reflexivity|]. split; [reflexivity|].
    eexists. split; [vm_compute; reflexivity|]. vm_compute; reflexivity.
Qed.

(** C5 as stated does not hold: on success [create_datastore_by_type]
    answers [{'status': True}], which holds no datastore id. *)
Lemma C5_create_returns_no_id :
  ¬ (∀ dt privkey drivers w r w',
       create_datastore_by_type SpecData.backend dt privkey drivers w = Returned r w' →
       r !! "error" = None →
       ∃ k, r !! k
            = Some (PStr (SpecData.datastore_get_id (SpecData.get_pubkey_hex privkey)))).
Proof.
  intros H.
  destruct (H "datastore" Examples.key None Examples.w_empty status_true
              Examples.w_created) as [k Hk]; [reflexivity|reflexivity|].
  unfold status_true in Hk. apply lookup_singleton_Some in Hk as [_ Hk]. discriminate.
Qed.

(** C5, amended.  [create_datastore_by_type] always returns a result
    object; on success the object is [{'status': True}]; and when the
    endpoint is up and the lookup of the id derived from the key finds a
    datastore, the result is the error [EEXIST] and the world is the one
    the call started in: nothing is written. *)
Theorem C5_create_datastore {W} (B : Backend W) dt privkey drivers w :
  local_api_connect B w = true →
  (∃ r w', create_datastore_by_type B dt privkey drivers w = Returned r w'
           ∧ (r !! "error" = None → r = status_true))
  ∧ (backend_datastore_get B w (datastore_get_id B (get_pubkey_hex B privkey)) None
       !! "error" = None →
     create_datastore_by_type B dt privkey drivers w
     = Returned (errno_result "Datastore exists" errno.EEXIST) w).
Proof.
  intros Hup. unfold create_datastore_by_type. unfold_py. rewrite Hup. simpl.
  split.
  - destruct (dict_has (backend_datastore_get _ _ _ _) "error") eqn:E1; simpl;
      [|eexists _, _; split; [done|]; intros Hr; discriminate Hr].
    destruct (dict_has (make_datastore_info _ _ _ _ _) "error") eqn:E2; simpl.
    { eexists _, _; split; [done|]. apply dict_has_true in E2 as [? E2]. congruence. }
    destruct (put_datastore _ _ _ _) as [res w'].
    destruct (dict_has res "error") eqn:E3; eexists _, _; (split; [done|]); [|done].
    apply dict_has_true in E3 as [? E3]. congruence.
  - intros Hex. apply dict_has_false in Hex. by rewrite Hex.
Qed.

Lemma C5_create_datastore_witness :
  local_api_connect SpecData.backend Examples.w_created = true
  ∧ backend_datastore_get SpecData.backend Examples.w_created
      (SpecData.datastore_get_id (SpecData.get_pubkey_hex Examples.key)) None
      !! "error" = None
  ∧ create_datastore_by_type SpecData.backend "datastore" Examples.key None
      Examples.w_created
    = Returned (errno_result "Datastore exists" errno.EEXIST) Examples.w_created.
Proof.
  split; [reflexivity|]. split; [vm_compute; reflexivity|].
  apply (C5_create_datastore SpecData.backend "datastore" Examples.key None
           Examples.w_created); [reflexivity | vm_compute; reflexivity].
Defined.

(** ** The model of the data module *)

Module SpecDataFacts.
Import SpecData.
Local Open Scope nat_scope.

(** *** Versions, saving and loading *)

Section Store.
Implicit Types (w : world) (devs : list string) (u : string) (i : inode).

Lemma current_version_bound w u devs n :
  (∀ d, d ∈ devs → recorded_version w u d ≤ n) → current_version w u devs ≤ n.
Proof.
  unfold current_version. induction devs as [|d devs IH]; simpl; intros H; [lia|].
  apply Nat.max_lub; [apply H; left | apply IH; intros; apply H; by right].
Qed.

Lemma current_version_ge w u devs d :
  d ∈ devs → recorded_version w u d ≤ current_version w u devs.
Proof.
  unfold current_version. induction devs as [|d' devs IH]; simpl; intros H.
  - inversion H.
  - apply elem_of_cons in H as [->|H]; [lia|]. specialize (IH H). lia.
Qed.

Lemma recorded_version_save w devs u o p u' d :
  recorded_version (save_inode w devs u o p) u' d =
  if decide ((u, local_device w) = (u', d)) then next_version w u devs
  else recorded_version w u' d.
Proof.
  unfold recorded_version, save_inode; simpl. rewrite lookup_insert.
  case_decide; reflexivity.
Qed.

Lemma current_version_save_ne w devs u o p u' devs' :
  u ≠ u' → current_version (save_inode w devs u o p) u' devs' = current_version w u' devs'.
Proof.
  intros Hne. unfold current_version. induction devs' as [|d ds IH]; simpl; [done|].
  rewrite IH, recorded_version_save. case_decide; [congruence|done].
Qed.

Lemma current_version_save_eq w devs u o p :
  current_version (save_inode w devs u o p) u devs ≤ next_version w u devs.
Proof.
  apply current_version_bound. intros d Hd. rewrite recorded_version_save.
  case_decide; [done|]. unfold next_version.
  pose proof (current_version_ge w u devs d Hd). lia.
Qed.

Lemma load_save_ne w devs u o p devs' u' f :
  u ≠ u' → load_inode (save_inode w devs u o p) devs' u' f = load_inode w devs' u' f.
Proof.
  intros Hne. unfold load_inode.
  rewrite current_version_save_ne by done.
  unfold save_inode at 1; simpl. rewrite lookup_insert_ne by done.
  reflexivity.
Qed.

Lemma load_save_eq w devs u o p :
  existsb (is_tombstoned w u) devs = false →
  load_inode (save_inode w devs u o p) devs u false =
  Ok {| i_owner := o; i_version := next_version w u devs; i_data := p |}.
Proof.
  intros Ht. unfold load_inode.
  unfold save_inode at 1; simpl. rewrite lookup_insert_eq.
  unfold is_tombstoned in *. simpl. rewrite Ht. simpl.
  pose proof (current_version_save_eq w devs u o p).
  destruct (Nat.ltb_spec (next_version w u devs) (current_version (save_inode w devs u o p) u devs)); [lia|done].
Qed.

Lemma load_ok_served w devs u f i :
  load_inode w devs u f = Ok i → served w !! u = Some i.
Proof.
  unfold load_inode. destruct (served w !! u); [|done].
  repeat case_match; congruence.
Qed.

Lemma load_ok_not_tombstoned w devs u i :
  load_inode w devs u false = Ok i → existsb (is_tombstoned w u) devs = false.
Proof.
  unfold load_inode. destruct (served w !! u); [|done]. simpl.
  destruct (existsb _ _); [done|done].
Qed.

End Store.


Section Walk.
Implicit Types (w : world) (devs : list string) (u : string) (i : inode).

Lemma walk_app w devs f cur l1 l2 :
  walk w devs f cur ((l1 ++ l2)%list) =
  match walk w devs f cur l1 with
  | Ok c => walk w devs f c l2
  | Err e => Err e
  end.
Proof.
  revert cur. induction l1 as [|s l1 IH]; intros cur; simpl; [done|].
  destruct (i_data cur.2); [done|].
  destruct (_ !! s); [|done].
  destruct (load_inode _ _ _ _); [|done]. apply IH.
Qed.

Lemma split_last_app segs init leaf :
  split_last segs = Some (init, leaf) → segs = (init ++ [leaf])%list.
Proof.
  revert init. induction segs as [|s segs IH]; intros init; simpl; [done|].
  destruct segs as [|s' segs'].
  - intros [= <- <-]. done.
  - destruct (split_last (s' :: segs')) as [[init' leaf']|]; [|done].
    intros [= <- <-]. simpl. f_equal. by apply IH.
Qed.

Lemma walk_dir_origin w devs f cur segs r :
  walk w devs f cur segs = Ok r → is_dir r.2 → is_dir cur.2.
Proof.
  destruct segs as [|s segs]; simpl.
  - by intros [= <-].
  - unfold is_dir. destruct (i_data cur.2); [done|]. done.
Qed.


(** Directories untouched: the walk is the same. *)
Lemma walk_same_dirs w w' devs segs :
  (∀ u i, load_inode w devs u false = Ok i → is_dir i →
          load_inode w' devs u false = Ok i) →
  ∀ cur r, walk w devs false cur segs = Ok r → is_dir r.2 →
           walk w' devs false cur segs = Ok r.
Proof.
  intros Hsame. induction segs as [|s segs IH]; intros cur r; simpl; [done|].
  destruct (i_data cur.2); [done|].
  destruct (_ !! s) as [de|]; [|done].
  destruct (load_inode w devs _ false) as [child|] eqn:E; [|done].
  intros Hw Hr.
  pose proof (walk_dir_origin _ _ _ _ _ _ Hw Hr) as Hc.
  rewrite (Hsame _ _ E Hc). by apply IH.
Qed.

Section Update.
Variables (w w' : world) (devs : list string) (P leaf : string) (pi pi' : inode)
  (es es' : gmap string dirent).
Hypothesis Hother : ∀ u i, u ≠ P → load_inode w devs u false = Ok i → is_dir i →
  load_inode w' devs u false = Ok i.
Hypothesis HP : load_inode w devs P false = Ok pi.
Hypothesis HP' : load_inode w' devs P false = Ok pi'.
Hypothesis Hes : i_data pi = DirData es.
Hypothesis Hes' : i_data pi' = DirData es'.
Hypothesis Hagree : ∀ k, k ≠ leaf → es' !! k = es !! k.
Hypothesis Hleaf : ∀ de i, es !! leaf = Some de →
  load_inode w devs (de_uuid de) false = Ok i → ¬ is_dir i.

Lemma load_img u i :
  load_inode w devs u false = Ok i → is_dir i →
  load_inode w' devs u false = Ok (img P pi' u i).
Proof.
  intros Hl Hd. unfold img. case_decide as E; [by subst|]. by apply Hother.
Qed.

Lemma walk_update segs :
  ∀ u i r, walk w devs false (u, i) segs = Ok r → is_dir r.2 →
    (u = P → i = pi) →
    walk w' devs false (u, img P pi' u i) segs = Ok (r.1, img P pi' r.1 r.2).
Proof.
  induction segs as [|s segs IH]; intros u i r; simpl.
  - intros [= <-] _ _. done.
  - intros Hw Hr Hu.
    destruct (i_data i) as [|esi] eqn:Ei; [done|].
    destruct (esi !! s) as [de|] eqn:Es; [|done].
    destruct (load_inode w devs (de_uuid de) false) as [child|] eqn:El; [|done].
    pose proof (walk_dir_origin _ _ _ _ _ _ Hw Hr) as Hc. simpl in Hc.
    assert (∃ esi', i_data (img P pi' u i) = DirData esi' ∧ esi' !! s = Some de)
      as (esi' & -> & ->).
    { unfold img. case_decide as E.
      - specialize (Hu E). subst i. rewrite Hes in Ei. injection Ei as ->.
        exists es'. split; [done|]. rewrite Hagree; [done|].
        intros ->. by eapply Hleaf.
      - eauto. }
    rewrite (load_img _ _ El Hc).
    apply IH; [done..|].
    intros E. rewrite E in El. congruence.
Qed.
End Update.
End Walk.


Section Ops.
Implicit Types (w : world) (devs : list string) (u : string) (i : inode)
  (ds : datastore).

Lemma fresh_uuid_unused w : fresh_uuid w ∉ used_uuids w.
Proof. apply fresh_string_of_set_fresh. Qed.

Lemma fresh_not_served w : served w !! fresh_uuid w = None.
Proof.
  pose proof (fresh_uuid_unused w) as H. unfold used_uuids in H.
  apply not_elem_of_dom. set_solver.
Qed.

Lemma fresh_not_tombstoned w devs :
  existsb (is_tombstoned w (fresh_uuid w)) devs = false.
Proof.
  pose proof (fresh_uuid_unused w) as H. unfold used_uuids in H.
  apply not_true_is_false. intros Hex. apply existsb_exists in Hex as (d & _ & Hd).
  unfold is_tombstoned in Hd. apply bool_decide_eq_true in Hd.
  apply H. apply elem_of_union_r. apply elem_of_map. by exists (fresh_uuid w, d).
Qed.

Lemma walk_result_loaded w devs f segs :
  ∀ u0 i0 r, load_inode w devs u0 f = Ok i0 →
    walk w devs f (u0, i0) segs = Ok r → load_inode w devs r.1 f = Ok r.2.
Proof.
  induction segs as [|s segs IH]; intros u0 i0 r Hl; simpl.
  - by intros [= <-].
  - destruct (i_data i0); [done|]. destruct (_ !! s) as [de|]; [|done].
    destruct (load_inode w devs (de_uuid de) f) eqn:E; [|done].
    by apply IH.
Qed.

Lemma failure_error e : failure e !! "error" = Some (PStr (message_of e)).
Proof. unfold failure, errno_result. by rewrite lookup_insert_ne, lookup_singleton_eq. Qed.

Lemma status_true_error : status_true !! "error" = None.
Proof. done. Qed.

(** What [resolve_parent] found, spelled out. *)
Lemma resolve_parent_ok w ds segs f pu pi es leaf :
  resolve_parent w ds segs f = Ok (pu, pi, es, leaf) →
  ∃ init root,
    segs = (init ++ [leaf])%list ∧ too_deep ds segs = false ∧
    load_inode w (ds_device_ids ds) (ds_root_uuid ds) f = Ok root ∧
    walk w (ds_device_ids ds) f (ds_root_uuid ds, root) init = Ok (pu, pi) ∧
    i_data pi = DirData es.
Proof.
  unfold resolve_parent.
  destruct (split_last segs) as [[init leaf']|] eqn:Esl; [|done].
  destruct (too_deep ds segs) eqn:Etd; [done|].
  destruct (load_inode _ _ _ _) as [root|] eqn:Er; [|done].
  destruct (walk _ _ _ _ _) as [[pu' pi']|] eqn:Ew; [|done].
  destruct (i_data pi') eqn:Ed; [done|].
  intros [= -> -> -> ->]. exists init, root.
  split; [by apply split_last_app|]. done.
Qed.

Lemma resolve_unfold w ds init leaf f root p :
  too_deep ds (init ++ [leaf])%list = false →
  load_inode w (ds_device_ids ds) (ds_root_uuid ds) f = Ok root →
  walk w (ds_device_ids ds) f (ds_root_uuid ds, root) init = Ok p →
  resolve w ds (init ++ [leaf])%list f = walk w (ds_device_ids ds) f p [leaf].
Proof.
  intros Htd Hr Hw. unfold resolve. rewrite Htd, Hr, walk_app, Hw. done.
Qed.

Lemma putfile_resolve ds path b k create w r w' :
  datastore_putfile ds path (PStr b) k create false w = (r, w') →
  r !! "error" = None →
  ∃ F, resolve w' ds (split_path path) false =
         Ok (F, {| i_owner := get_pubkey_hex k;
                   i_version := next_version w F (ds_device_ids ds);
                   i_data := FileData b |})
       ∧ recorded_version w' F (local_device w) = next_version w F (ds_device_ids ds)
       ∧ same_config w w'
       ∧ (∀ t, resolve w ds (split_path path) false = Ok t → t.1 = F).
Proof.
  unfold datastore_putfile.
  destruct (resolve_parent _ _ _ _) as [[[[pu pi] es] leaf]|e] eqn:Erp;
    [|intros [= <- <-]; by rewrite failure_error].
  apply resolve_parent_ok in Erp as (init & root & Hsegs & Htd & Hroot & Hwalk & Hes).
  set (devs := ds_device_ids ds) in *.
  pose proof (walk_result_loaded _ _ _ _ _ _ _ Hroot Hwalk) as HP. simpl in HP.
  assert (is_dir pi) as Hpd by (unfold is_dir; by rewrite Hes).
  pose proof (walk_dir_origin _ _ _ _ _ _ Hwalk Hpd) as Hrd. simpl in Hrd.
  rewrite Hsegs in *.
  destruct (es !! leaf) as [de|] eqn:El.
  - (* the leaf exists: overwrite *)
    destruct create; [intros [= <- <-]; by rewrite failure_error|].
    destruct (load_inode w devs (de_uuid de) false) as [ci|e] eqn:Ec;
      [|intros [= <- <-]; by rewrite failure_error].
    destruct (i_data ci) eqn:Ecd; [|intros [= <- <-]; by rewrite failure_error].
    intros [= <- <-] _. exists (de_uuid de).
    set (w' := save_inode w devs (de_uuid de) (get_pubkey_hex k) (FileData b)).
    assert (∀ u i, load_inode w devs u false = Ok i → is_dir i →
                   load_inode w' devs u false = Ok i) as Hsame.
    { intros u i Hu Hd. unfold w'. rewrite load_save_ne; [done|].
      intros <-. unfold is_dir in Hd. rewrite Ec in Hu. injection Hu as <-.
      by rewrite Ecd in Hd. }
    split; [|split; [|split]].
    + rewrite (resolve_unfold _ _ _ _ _ root (pu, pi)); [|done|by apply Hsame|].
      * simpl. rewrite Hes, El. unfold w'. rewrite load_save_eq; [done|].
        by eapply load_ok_not_tombstoned.
      * by apply walk_same_dirs with (w := w).
    + unfold w'. rewrite recorded_version_save. by rewrite decide_True.
    + done.
    + intros t. rewrite (resolve_unfold _ _ _ _ _ root (pu, pi)) by done.
      simpl. rewrite Hes, El. fold devs. rewrite Ec. by intros [= <-].
  - (* a new file *)
    intros [= <- <-] _. exists (fresh_uuid w).
    set (F := fresh_uuid w).
    set (w1 := save_inode w devs F (get_pubkey_hex k) (FileData b)).
    set (entry := {| de_uuid := F; de_type := MUTABLE_DATUM_FILE_TYPE |}).
    set (es' := <[leaf := entry]> es).
    set (w2 := save_inode w1 devs pu (i_owner pi) (DirData es')).
    set (pi' := {| i_owner := i_owner pi; i_version := next_version w1 pu devs;
                   i_data := DirData es' |}).
    assert (pu ≠ F) as HpF.
    { intros E. apply load_ok_served in HP. rewrite E in HP.
      unfold F in HP. by rewrite fresh_not_served in HP. }
    assert (load_inode w2 devs pu false = Ok pi') as HP'.
    { unfold w2. rewrite load_save_eq; [done|].
      apply load_ok_not_tombstoned in HP. done. }
    assert (∀ u i, u ≠ pu → load_inode w devs u false = Ok i → is_dir i →
                   load_inode w2 devs u false = Ok i) as Hother.
    { intros u i Hu Hl _. unfold w2, w1. rewrite !load_save_ne; [done| |done].
      intros <-. apply load_ok_served in Hl. unfold F in Hl.
      by rewrite fresh_not_served in Hl. }
    assert (∀ k, k ≠ leaf → es' !! k = es !! k) as Hagree.
    { intros k' Hk. unfold es'. by rewrite lookup_insert_ne. }
    assert (∀ de i, es !! leaf = Some de →
              load_inode w devs (de_uuid de) false = Ok i → ¬ is_dir i) as Hleaf.
    { intros de i Hde. by rewrite El in Hde. }
    split; [|split; [|split]].
    + rewrite (resolve_unfold _ _ _ _ _ (img pu pi' (ds_root_uuid ds) root) (pu, pi')); [|done| |].
      * simpl. unfold es'. rewrite lookup_insert_eq. simpl.
        unfold w2. rewrite load_save_ne by done. unfold w1.
        rewrite load_save_eq; [done|]. apply fresh_not_tombstoned.
      * by apply (load_img w w2 devs pu pi').
      * pose proof (walk_update w w2 devs pu leaf pi pi' es es' Hother HP HP' Hes eq_refl
                      Hagree Hleaf init _ _ _ Hwalk Hpd) as Hw2.
        simpl in Hw2. unfold img at 2 in Hw2. rewrite decide_True in Hw2 by done.
        apply Hw2. intros E. rewrite E in Hroot. congruence.
    + unfold w2, w1. rewrite !recorded_version_save.
      rewrite decide_False by (intros [= E]; done).
      by rewrite decide_True.
    + done.
    + intros t. rewrite (resolve_unfold _ _ _ _ _ root (pu, pi)) by done.
      simpl. by rewrite Hes, El.
Qed.





Lemma same_config_refl w : same_config w w.
Proof. by repeat split. Qed.

Lemma same_config_trans w1 w2 w3 :
  same_config w1 w2 → same_config w2 w3 → same_config w1 w3.
Proof. unfold same_config. intros (?&?&?&?&?&?) (?&?&?&?&?&?). repeat split; congruence. Qed.

Lemma save_inode_config w devs u o p : same_config w (save_inode w devs u o p).
Proof. by repeat split. Qed.

Lemma put_tombstones_config w u devs : same_config w (put_tombstones w u devs).
Proof. by repeat split. Qed.

Lemma drop_bytes_config w u : same_config w (drop_bytes w u).
Proof. unfold drop_bytes. destruct (drivers_delete w); by repeat split. Qed.


(** The tombstone check of the inode store: once [deletefile] has
    succeeded on a datastore with some device, reading the inode of the
    file is rejected with [ENOENT], whether the drivers still serve its
    bytes or not. *)
Lemma deletefile_inode_rejected ds path k force w r w' :
  datastore_deletefile ds path k force w = (r, w') →
  r !! "error" = None →
  ds_device_ids ds ≠ [] →
  ∃ F ci, resolve w ds (split_path path) force = Ok (F, ci)
    ∧ ∃ e, load_inode w' (ds_device_ids ds) F false = Err e
           ∧ errno_of e = errno.ENOENT.
Proof.
  unfold datastore_deletefile.
  destruct (resolve_parent _ _ _ _) as [[[[pu pi] es] leaf]|e] eqn:Erp;
    [|intros [= <- <-]; by rewrite failure_error].
  apply resolve_parent_ok in Erp as (init & root & Hsegs & Htd & Hroot & Hwalk & Hes).
  set (devs := ds_device_ids ds) in *.
  rewrite Hsegs in *.
  pose proof (walk_result_loaded _ _ _ _ _ _ _ Hroot Hwalk) as HP. simpl in HP.
  destruct (es !! leaf) as [de|] eqn:El; [|intros [= <- <-]; by rewrite failure_error].
  destruct (load_inode w devs (de_uuid de) force) as [ci|e] eqn:Ec;
    [|intros [= <- <-]; by rewrite failure_error].
  destruct (i_data ci) eqn:Ecd; [|intros [= <- <-]; by rewrite failure_error].
  intros [= <- <-] _ Hdevs. exists (de_uuid de), ci. split.
  { rewrite (resolve_unfold _ _ _ _ _ root (pu, pi)) by done.
    simpl. rewrite Hes, El. fold devs. by rewrite Ec. }
  apply load_ok_served in Ec as HF. apply load_ok_served in HP as HPs.
  assert (pu ≠ de_uuid de) as Hne.
  { intros E. rewrite E, HF in HPs. injection HPs as <-. congruence. }
  unfold remove_leaf, drop_bytes. simpl.
  destruct (drivers_delete w).
  - exists NotFound. split; [|done]. unfold load_inode; simpl.
    by rewrite lookup_delete_eq.
  - exists Tombstoned. split; [|done].
    rewrite load_save_ne by done. unfold load_inode.
    replace (served (put_tombstones w (de_uuid de) devs)) with (served w) by done.
    rewrite HF. simpl.
    destruct devs as [|d l]; [done|]. simpl.
    replace (is_tombstoned (put_tombstones w (de_uuid de) (d :: l)) (de_uuid de) d)
      with true; [done|].
    symmetry. unfold is_tombstoned. apply bool_decide_eq_true.
    unfold put_tombstones, make_tombstones; simpl. set_solver.
Qed.

End Ops.

End SpecDataFacts.

(** ** The commands as functions of their arguments *)

Section Run.
Context {W : Type} (B : Backend W).

Lemma cli_datastore_getfile_run (args : dict) w :
  cli_datastore_getfile B args w =
  match args !! "datastore_id", args !! "path", flag_of (args !! "extended"),
        flag_of (args !! "force"), devs_of (args !! "device_ids") with
  | Some idv, Some pv, Some ext, Some force, Some devs =>
      datastore_file_get B "datastore" (py_str idv) (py_str pv) ext force devs w
  | _, _, _, _, _ => Raised AttributeError w
  end.
Proof.
  unfold cli_datastore_getfile, mbind, M_bind.
  rewrite str_attr_eq. destruct (args !! "datastore_id"); [|done].
  rewrite str_attr_eq. destruct (args !! "path"); [|done].
  rewrite opt_flag_eq. destruct (flag_of (args !! "extended")); [|done].
  rewrite opt_flag_eq. destruct (flag_of (args !! "force")); [|done].
  rewrite opt_device_ids_eq. destruct (devs_of (args !! "device_ids")); done.
Qed.

Lemma cli_datastore_stat_run (args : dict) w :
  cli_datastore_stat B args w =
  match args !! "datastore_id", args !! "path", flag_of (args !! "extended"),
        flag_of (args !! "force"), flag_of (args !! "idata"),
        devs_of (args !! "device_ids") with
  | Some idv, Some pv, Some ext, Some force, Some idata, Some devs =>
      datastore_path_stat B "datastore" (py_str idv) (py_str pv) ext force idata devs w
  | _, _, _, _, _, _ => Raised AttributeError w
  end.
Proof.
  unfold cli_datastore_stat, mbind, M_bind.
  rewrite str_attr_eq.
  destruct (args !! "path") eqn:Ep; [|by destruct (args !! "datastore_id")].
  rewrite str_attr_eq. destruct (args !! "datastore_id"); [|done].
  rewrite str_attr_eq, Ep.
  rewrite opt_flag_eq. destruct (flag_of (args !! "extended")); [|done].
  rewrite opt_flag_eq. destruct (flag_of (args !! "force")); [|done].
  rewrite opt_flag_eq. destruct (flag_of (args !! "idata")); [|done].
  rewrite opt_device_ids_eq. destruct (devs_of (args !! "device_ids")); done.
Qed.

Lemma cli_datastore_putfile_run (args : dict) force_data w :
  cli_datastore_putfile B args force_data w =
  match args !! "path", args !! "data", args !! "privkey",
        devs_of (args !! "device_ids") with
  | Some pv, Some dv, Some kv, Some devs =>
      datastore_file_put B "datastore" (py_str kv) (py_str pv) (PStr (py_str dv))
        (in_list (lower (py_str (getattr_default args "create" (PStr EmptyString))))
                 ["1"; "create"; "true"])
        force_data false devs w
  | _, _, _, _ => Raised AttributeError w
  end.
Proof.
  unfold cli_datastore_putfile, mbind, M_bind.
  rewrite str_attr_eq. destruct (args !! "path"); [|done].
  rewrite str_attr_eq. destruct (args !! "data"); [|done].
  rewrite str_attr_eq. destruct (args !! "privkey"); [|done].
  rewrite opt_device_ids_eq. destruct (devs_of (args !! "device_ids")); done.
Qed.

Lemma datastore_file_put_run dt privkey path data create force_data force devs w :
  datastore_file_put B dt privkey path data create force_data force devs w =
  match stored_data B w data force_data with
  | None => Returned (error_result ("Failed to read " ++ dquote ++ py_str data ++ dquote)) w
  | Some data' =>
      if negb (local_api_connect B w) then Returned api_not_running w
      else
        let info := backend_datastore_get B w
                      (datastore_get_id B (get_pubkey_hex B privkey)) devs in
        if dict_has info "error" then Returned info w
        else
          match info !! "datastore" with
          | Some (PDatastore ds) =>
              let '(r, w') := datastore_putfile B ds path data' privkey create false w in
              Returned r w'
          | Some _ => Raised TypeError w
          | None => Raised KeyError w
          end
  end.
Proof.
  unfold datastore_file_put, stored_data. unfold_py.
  destruct (is_valid_path data && os_path_exists B w (py_str data) && negb force_data);
    simpl.
  - destruct (open_read B w (py_str data)); simpl; [|done].
    destruct (local_api_connect B w); simpl; [|done].
    destruct (dict_has _ "error"); simpl; [done|].
    destruct (_ !! "datastore") as [[]|]; done.
  - destruct (local_api_connect B w); simpl; [|done].
    destruct (dict_has _ "error"); simpl; [done|].
    destruct (_ !! "datastore") as [[]|]; done.
Qed.
Lemma dir_list_collection dt id path ext force devs w ds :
  local_api_connect B w = true →
  backend_datastore_get B w id devs !! "error" = None →
  backend_datastore_get B w id devs !! "datastore" = Some (PDatastore ds) →
  ds_type ds = "collection" →
  path ≠ "/" →
  ∃ msg, datastore_dir_list B dt id path ext force devs w
         = Returned (errno_result msg errno.EINVAL) w.
Proof.
  intros Hup Herr Hds Hty Hpath. unfold datastore_dir_list. unfold_py.
  rewrite Hup. simpl. apply dict_has_false in Herr. rewrite Herr, Hds. simpl.
  rewrite Hty.
  destruct (String.eqb_spec "collection" dt) as [<-|Hne]; simpl.
  - destruct (String.eqb_spec path "/") as [->|_]; [done|]. simpl. by eexists.
  - by eexists.
Qed.

End Run.

(** ** The commands over the model of the data module *)

Import SpecData SpecDataFacts.

Lemma failure_errno e : failure e !! "errno" = Some (PInt (errno_of e)).
Proof. unfold failure, errno_result. by rewrite lookup_insert_eq. Qed.

Lemma backend_get_error w id devs :
  dict_has (backend_datastore_get w id devs) "error" =
  bool_decide (datastores w !! id = None).
Proof.
  unfold backend_datastore_get. destruct (datastores w !! id); simpl.
  - done.
  - unfold dict_has. rewrite failure_error. done.
Qed.

Lemma handle_dict_error (v : pyval) : dict_has ({[ "datastore" := v ]} : dict) "error" = false.
Proof. reflexivity. Qed.

Lemma handle_dict_datastore (v : pyval) : ({[ "datastore" := v ]} : dict) !! "datastore" = Some v.
Proof. reflexivity. Qed.

Lemma error_result_error msg : error_result msg !! "error" = Some (PStr msg).
Proof. reflexivity. Qed.

Lemma api_not_running_error : is_Some (api_not_running !! "error").
Proof. by eexists. Qed.

Lemma datastore_getfile_world ds path ext force w :
  (datastore_getfile ds path ext force w).2 = w.
Proof. unfold datastore_getfile. repeat case_match; done. Qed.


Lemma datastore_file_get_spec dt id path ext force devs w :
  datastore_file_get backend dt id path ext force devs w =
  if negb (api_running w) then Returned api_not_running w
  else
    match datastores w !! id with
    | None => Returned (failure NotFound) w
    | Some ds0 =>
        if negb (String.eqb (ds_type ds0) dt)
        then Returned (error_result (is_a id (ds_type ds0))) w
        else Returned (datastore_getfile (handle_of w ds0 devs) path ext force w).1 w
    end.
Proof.
  unfold datastore_file_get. unfold_py.
  destruct (api_running w); simpl; [|done].
  unfold backend_datastore_get. destruct (datastores w !! id) as [ds0|]; simpl.
  - rewrite handle_dict_error, handle_dict_datastore. simpl.
    destruct (negb (ds_type ds0 =? dt)%string); [done|].
    pose proof (datastore_getfile_world (handle_of w ds0 devs) path ext force w) as Hw.
    destruct (datastore_getfile _ _ _ _ _) as [r w1]. simpl in *. by subst.
  - done.
Qed.


(** A put that succeeds went through the data module, with what
    [stored_data] gives. *)
Lemma datastore_file_put_ok dt k path data create fd force devs w r w' :
  datastore_file_put backend dt k path data create fd force devs w = Returned r w' →
  r !! "error" = None →
  ∃ ds0 data',
    api_running w = true ∧
    datastores w !! datastore_get_id (get_pubkey_hex k) = Some ds0 ∧
    stored_data backend w data fd = Some data' ∧
    datastore_putfile (handle_of w ds0 devs) path data' k create false w = (r, w').
Proof.
  rewrite datastore_file_put_run. simpl.
  destruct (stored_data backend w data fd) as [data'|];
    [|intros [= <- <-]; by rewrite error_result_error].
  destruct (api_running w); simpl;
    [|intros [= <- <-] E; destruct api_not_running_error; congruence].
  unfold backend_datastore_get.
  destruct (datastores w !! _) as [ds0|] eqn:Eds; simpl.
  - rewrite handle_dict_error, handle_dict_datastore.
    destruct (datastore_putfile _ _ _ _ _ _ _) as [r1 w1] eqn:Ep.
    intros [= <- <-] _. by exists ds0, data'.
  - replace (dict_has (failure NotFound) "error") with true by (by vm_compute).
    intros [= <- <-]. by rewrite failure_error.
Qed.


Lemma stored_data_str w data fd data' :
  stored_data backend w (PStr data) fd = Some data' →
  ∃ bytes, data' = PStr bytes
    ∧ (fd = true ∨ is_valid_path (PStr data) = false ∨ local_files w !! data = None →
       bytes = data).
Proof.
  unfold stored_data. simpl.
  destruct (all_chars valid_char data) eqn:Ev; simpl.
  2:{ intros [= <-]. by exists data. }
  destruct (local_files w !! data) as [c|] eqn:Ef; simpl.
  2:{ intros [= <-]. by exists data. }
  destruct fd; simpl.
  { intros [= <-]. by exists data. }
  destruct c as [c|]; simpl; [|done].
  intros [= <-]. exists c. split; [done|]. intros [?|[?|?]]; done.
Qed.









Lemma rmtree_children_config (step : string → world → world * option error) w :
  (∀ child w', same_config w w' → same_config w (step child w').1) →
  ∀ children acc, same_config w acc.1 →
    same_config w
      (foldl (λ acc child,
                match acc with
                | (w', None) => step child w'
                | (w', Some e) => (w', Some e)
                end) acc children).1.
Proof.
  intros Hstep children. induction children as [|c l IH]; intros acc Hacc; simpl; [done|].
  apply IH. destruct acc as [w' [e|]]; simpl in *; [done|]. by apply Hstep.
Qed.

Lemma rmtree_inode_config fuel devs :
  ∀ u w0 w, same_config w0 w → same_config w0 (rmtree_inode fuel devs u w).1.
Proof.
  induction fuel as [|fuel IH]; intros u w0 w Hw; simpl; [done|].
  destruct (load_inode w devs u false) as [i|e]; [|done].
  match goal with |- context [foldl ?f ?a ?l] =>
    pose proof (rmtree_children_config (rmtree_inode fuel devs) w0
                  (λ c w' H, IH c w0 w' H) l a Hw) as Hfold;
    destruct (foldl f a l) as [w' [e|]] end; simpl in *; [done|].
  eapply same_config_trans; [|apply drop_bytes_config].
  eapply same_config_trans; [|apply put_tombstones_config]. done.
Qed.

Lemma datastore_rmtree_config ds path k w :
  same_config w (datastore_rmtree ds path k w).2.
Proof.
  unfold datastore_rmtree.
  destruct (split_path path) as [|s segs].
  - destruct (load_inode _ _ _ _) as [root|]; [|apply same_config_refl].
    destruct (i_data root) as [|es]; [apply same_config_refl|].
    match goal with |- context [foldl ?f ?a ?l] =>
      pose proof (rmtree_children_config
                    (rmtree_inode (S (size (served w))) (ds_device_ids ds)) w
                    (λ c w' H, rmtree_inode_config _ _ c w w' H) l a
                    (same_config_refl w)) as Hfold;
      destruct (foldl f a l) as [w' [e|]] end; simpl in *; [done|].
    eapply same_config_trans; [|apply save_inode_config]. done.
  - destruct (resolve_parent _ _ _ _) as [[[[pu pi] es] leaf]|]; [|apply same_config_refl].
    destruct (es !! leaf) as [de|]; [|apply same_config_refl].
    pose proof (rmtree_inode_config (S (size (served w))) (ds_device_ids ds)
                  (de_uuid de) w w (same_config_refl w)) as Hr.
    destruct (rmtree_inode _ _ _ _) as [w' [e|]]; simpl in *; [done|].
    eapply same_config_trans; [|apply save_inode_config]. done.
Qed.


Lemma split_last_some s segs : ∃ init leaf, split_last (s :: segs) = Some (init, leaf).
Proof.
  revert s. induction segs as [|s' segs IH]; intros s; simpl; [by eexists _, _|].
  destruct (IH s') as (init & leaf & E). simpl in E. rewrite E. by eexists _, _.
Qed.

Lemma resolve_too_deep w ds segs f :
  too_deep ds segs = true → resolve w ds segs f = Err InvalidArgument.
Proof. intros H. unfold resolve. by rewrite H. Qed.

Lemma resolve_parent_too_deep w ds segs f :
  too_deep ds segs = true → resolve_parent w ds segs f = Err InvalidArgument.
Proof.
  intros H. unfold resolve_parent. destruct (split_last segs) as [[]|]; [|done].
  by rewrite H.
Qed.


(** ** Claims about the data module, on the model *)

(** What is stored for the name of a readable local file, without
    [force_data]: the content of the file. *)
Lemma stored_data_file w data fd c :
  fd = false → is_valid_path (PStr data) = true →
  local_files w !! data = Some (Some c) →
  stored_data backend w (PStr data) fd = Some (PStr c).
Proof.
  intros -> Hv Hf. unfold stored_data. simpl in *. rewrite Hv, Hf. done.
Qed.

(** C2 as stated does not hold.  In [w_created] the local file
    [/etc/hostname] exists; [putfile /notes /etc/hostname] without
    [force_data] succeeds, and [getfile /notes] then returns the content
    of that file, not the payload given. *)
Lemma C2_roundtrip_fails_on_local_path :
  cli_datastore_putfile backend (Examples.putfile_args "/notes" "/etc/hostname") false
    Examples.w_created = Returned status_true Examples.w_hostname
  ∧ ∃ i, cli_datastore_getfile backend (Examples.path_args "/notes") Examples.w_hostname
         = Returned (<[ "file" := PInode i ]> status_true) Examples.w_hostname
       ∧ ii_idata i = Some (FileData "laptop.local")
       ∧ ii_idata i ≠ Some (FileData "/etc/hostname").
Proof.
  split; [vm_compute; reflexivity|].
  eexists. split; [vm_compute; reflexivity|]. split; [reflexivity|discriminate].
Qed.

(** C2, amended.  When [datastore_file_put] of a payload [data] at [path]
    succeeds, what is stored is what [stored_data] gives for [data]: the
    payload itself whenever [force_data] is set, or [data] is not a valid
    path, or no local file has that name; the content of the local file
    when [data] names a readable one and [force_data] is not set.
    [datastore_file_get] of [path] right after, with the same device
    list, returns the file with that content when it is called for the
    type the record has, and the error ['<id> is a <type>'] when it is
    called for the other type: the put does not look at the type, the
    get does. *)
Theorem C2_putfile_getfile dt k path data create fd force devs w r w' :
  datastore_file_put backend dt k path (PStr data) create fd force devs w
    = Returned r w' →
  r !! "error" = None →
  ∃ ds0 bytes F v,
    datastores w !! datastore_get_id (get_pubkey_hex k) = Some ds0
    ∧ stored_data backend w (PStr data) fd = Some (PStr bytes)
    ∧ (fd = true ∨ is_valid_path (PStr data) = false ∨ local_files w !! data = None →
       bytes = data)
    ∧ (∀ content, fd = false → is_valid_path (PStr data) = true →
         local_files w !! data = Some (Some content) → bytes = content)
    ∧ ∀ dt' ext,
        (ds_type ds0 = dt' →
         datastore_file_get backend dt' (datastore_get_id (get_pubkey_hex k))
           path ext false devs w'
         = Returned
             (<[ "file" := PInode {| ii_uuid := F; ii_type := MUTABLE_DATUM_FILE_TYPE;
                                     ii_version := v;
                                     ii_idata := Some (FileData bytes) |} ]>
                status_true) w')
        ∧ (ds_type ds0 ≠ dt' →
           datastore_file_get backend dt' (datastore_get_id (get_pubkey_hex k))
             path ext false devs w'
           = Returned
               (error_result (is_a (datastore_get_id (get_pubkey_hex k)) (ds_type ds0)))
               w').
Proof.
  intros Hput Hok.
  destruct (datastore_file_put_ok _ _ _ _ _ _ _ _ _ _ _ Hput Hok)
    as (ds0 & data' & Hup & Hds & Hsd & Hp).
  destruct (stored_data_str _ _ _ _ Hsd) as (bytes & -> & Hbytes).
  destruct (putfile_resolve _ _ _ _ _ _ _ _ Hp Hok) as (F & Hres & _ & Hcfg & _).
  exists ds0, bytes, F, (next_version w F (ds_device_ids (handle_of w ds0 devs))).
  split; [done|]. split; [done|]. split; [done|]. split.
  { intros content Hfd Hv Hf.
    rewrite (stored_data_file _ _ _ _ Hfd Hv Hf) in Hsd. congruence. }
  intros dt' ext.
  rewrite datastore_file_get_spec.
  destruct Hcfg as (Hup' & _ & _ & Hdev & _ & Hdss).
  rewrite Hup', Hup, Hdss, Hds. simpl. split.
  - intros <-. rewrite String.eqb_refl. simpl.
    unfold datastore_getfile.
    replace (handle_of w' ds0 devs) with (handle_of w ds0 devs)
      by (unfold handle_of; by rewrite Hdev).
    rewrite Hres. done.
  - intros Hne. apply String.eqb_neq in Hne. rewrite Hne. done.
Qed.

Lemma C2_putfile_getfile_witness :
  datastore_file_put backend "datastore" Examples.key "/notes" (PStr "hello")
    false false false None Examples.w_created = Returned status_true Examples.w_file
  ∧ status_true !! "error" = None
  ∧ ∃ ds0 bytes F v,
      datastores Examples.w_created !! datastore_get_id (get_pubkey_hex Examples.key)
        = Some ds0
      ∧ ds_type ds0 = "datastore" ∧ bytes = "hello"
      ∧ datastore_file_get backend "datastore"
          (datastore_get_id (get_pubkey_hex Examples.key)) "/notes" true false None
          Examples.w_file
        = Returned
            (<[ "file" := PInode {| ii_uuid := F; ii_type := MUTABLE_DATUM_FILE_TYPE;
                                    ii_version := v;
                                    ii_idata := Some (FileData bytes) |} ]> status_true)
            Examples.w_file
      ∧ datastore_file_get backend "collection"
          (datastore_get_id (get_pubkey_hex Examples.key)) "/notes" true false None
          Examples.w_file
        = Returned
            (error_result (is_a (datastore_get_id (get_pubkey_hex Examples.key))
                             "datastore")) Examples.w_file
      ∧ datastore_file_put backend "datastore" Examples.key "/notes" (PStr "hello")
          false false false None Examples.w_collection
        = Returned status_true MoreExamples.w_collection_file
      ∧ datastore_file_get backend "datastore"
          (datastore_get_id (get_pubkey_hex Examples.key)) "/notes" true false None
          MoreExamples.w_collection_file
        = Returned
            (error_result (is_a (datastore_get_id (get_pubkey_hex Examples.key))
                             "collection")) MoreExamples.w_collection_file.
Proof.
  assert (datastore_file_put backend "datastore" Examples.key "/notes" (PStr "hello")
            false false false None Examples.w_created
          = Returned status_true Examples.w_file) as Hput by (vm_compute; reflexivity).
  assert (datastore_file_put backend "datastore" Examples.key "/notes" (PStr "hello")
            false false false None Examples.w_collection
          = Returned status_true MoreExamples.w_collection_file) as Hputc
    by (vm_compute; reflexivity).
  assert (status_true !! "error" = None) as Hok by reflexivity.
  split; [exact Hput|]. split; [exact Hok|].
  destruct (C2_putfile_getfile "datastore" Examples.key "/notes" "hello" false false
              false None Examples.w_collection status_true
              MoreExamples.w_collection_file Hputc Hok)
    as (dsc & bytesc & Fc & vc & Hdsc & _ & _ & _ & Hgetc).
  assert (ds_type dsc = "collection") as Htyc.
  { vm_compute in Hdsc. injection Hdsc as Hdsc. rewrite <- Hdsc. reflexivity. }
  destruct (C2_putfile_getfile "datastore" Examples.key "/notes" "hello" false false
              false None Examples.w_created status_true Examples.w_file Hput Hok)
    as (ds0 & bytes & F & v & Hds & _ & Hdata & _ & Hget).
  assert (ds_type ds0 = "datastore") as Hty.
  { vm_compute in Hds. injection Hds as <-. reflexivity. }
  exists ds0, bytes, F, v. split; [exact Hds|]. split; [exact Hty|].
  split; [apply Hdata; right; right; reflexivity|].
  split; [apply Hget, Hty|].
  split; [rewrite <- Hty; apply Hget; rewrite Hty; discriminate|].
  split; [exact Hputc|].
  rewrite <- Htyc. apply Hgetc. rewrite Htyc. discriminate.
Defined.






(** C6.  Let the endpoint be up and the datastore of the key exist, of the
    type asked for, and let the [rmtree] of its root fail.  Without
    force, [delete_datastore_by_type] returns the error [ENOTEMPTY] and
    the datastore records are the ones it started with; with force it
    succeeds and the record of the key is gone. *)
Theorem C6_delete_datastore_rmtree_fails dt k w ds0 :
  api_running w = true →
  datastores w !! datastore_get_id (get_pubkey_hex k) = Some ds0 →
  ds_type ds0 = dt →
  is_Some ((datastore_rmtree (handle_of w ds0 None) "/" k w).1 !! "error") →
  (∃ w1, delete_datastore_by_type backend dt k false w
         = Returned (errno_result "Failed to remove all files and directories"
                       errno.ENOTEMPTY) w1
         ∧ datastores w1 = datastores w)
  ∧ (∃ w2, delete_datastore_by_type backend dt k true w = Returned status_true w2
           ∧ datastores w2 !! datastore_get_id (get_pubkey_hex k) = None).
Proof.
  intros Hup Hds Hty Hfail. apply dict_has_true in Hfail.
  pose proof (datastore_rmtree_config (handle_of w ds0 None) "/" k w) as Hcfg.
  unfold delete_datastore_by_type, _remove_datastore. unfold_py.
  rewrite Hup. simpl. unfold backend_datastore_get. rewrite Hds.
  rewrite handle_dict_error, handle_dict_datastore. simpl.
  rewrite Hty, String.eqb_refl. simpl.
  destruct (datastore_rmtree _ _ _ _) as [res w1]. simpl in *.
  rewrite Hfail. simpl. split.
  - exists w1. split; [done|]. by destruct Hcfg as (_ & _ & _ & _ & _ & ?).
  - eexists. split; [done|]. simpl. by rewrite lookup_delete_eq.
Qed.

Lemma C6_delete_datastore_rmtree_fails_witness :
  api_running Examples.w_stale = true
  ∧ datastores Examples.w_stale !! datastore_get_id (get_pubkey_hex Examples.key)
    = Some Examples.ds_created
  ∧ ds_type Examples.ds_created = "datastore"
  ∧ is_Some ((datastore_rmtree (handle_of Examples.w_stale Examples.ds_created None)
                "/" Examples.key Examples.w_stale).1 !! "error")
  ∧ (∃ w1, delete_datastore_by_type backend "datastore" Examples.key false
             Examples.w_stale
           = Returned (errno_result "Failed to remove all files and directories"
                         errno.ENOTEMPTY) w1
           ∧ datastores w1 = datastores Examples.w_stale)
  ∧ (∃ w2, delete_datastore_by_type backend "datastore" Examples.key true
             Examples.w_stale = Returned status_true w2
           ∧ datastores w2 !! datastore_get_id (get_pubkey_hex Examples.key) = None).
Proof.
  assert (datastores Examples.w_stale !! datastore_get_id (get_pubkey_hex Examples.key)
          = Some Examples.ds_created) as Hds by (vm_compute; reflexivity).
  assert (is_Some ((datastore_rmtree
                      (handle_of Examples.w_stale Examples.ds_created None)
                      "/" Examples.key Examples.w_stale).1 !! "error")) as Hf
    by (vm_compute; eexists; reflexivity).
  split; [reflexivity|]. split; [exact Hds|]. split; [reflexivity|].
  split; [exact Hf|].
  exact (C6_delete_datastore_rmtree_fails "datastore" Examples.key Examples.w_stale
           Examples.ds_created eq_refl Hds eq_refl Hf).
Defined.

(** C7.  On a datastore whose record says [collection], with the endpoint
    up, [datastore_dir_list] of any path other than [/] returns an error
    with errno [EINVAL], whatever type the caller names and for every
    backend.  In the model of the data module, every operation of the
    table on a collection, given a path of more than one segment, fails
    with [InvalidArgument], errno [EINVAL], and leaves the world as it
    is. *)
Theorem C7_collection_paths {W} (B : Backend W) dt id path ext force devs w ds
    cds cpath cw k data create idata :
  local_api_connect B w = true →
  Api.backend_datastore_get B w id devs !! "error" = None →
  Api.backend_datastore_get B w id devs !! "datastore" = Some (PDatastore ds) →
  ds_type ds = "collection" →
  path ≠ "/" →
  is_collection cds = true →
  (1 < length (split_path cpath))%nat →
  (∃ msg, datastore_dir_list B dt id path ext force devs w
          = Returned (errno_result msg errno.EINVAL) w)
  ∧ failure InvalidArgument !! "errno" = Some (PInt errno.EINVAL)
  ∧ datastore_getfile cds cpath ext force cw = (failure InvalidArgument, cw)
  ∧ datastore_putfile cds cpath data k create force cw = (failure InvalidArgument, cw)
  ∧ datastore_stat cds cpath ext force idata cw = (failure InvalidArgument, cw)
  ∧ datastore_listdir cds cpath ext force cw = (failure InvalidArgument, cw)
  ∧ datastore_mkdir cds cpath k cw = (failure InvalidArgument, cw)
  ∧ datastore_rmdir cds cpath k force cw = (failure InvalidArgument, cw)
  ∧ datastore_deletefile cds cpath k force cw = (failure InvalidArgument, cw)
  ∧ datastore_rmtree cds cpath k cw = (failure InvalidArgument, cw).
Proof.
  intros Hup Herr Hds Hty Hpath Hcol Hlen.
  split; [by eapply (dir_list_collection B)|]. split; [apply failure_errno|].
  assert (too_deep cds (split_path cpath) = true) as Hdeep.
  { unfold too_deep. rewrite Hcol. simpl. by apply Nat.ltb_lt. }
  unfold datastore_getfile, datastore_putfile, datastore_stat, datastore_listdir,
    datastore_mkdir, datastore_rmdir, datastore_deletefile, datastore_rmtree.
  rewrite !resolve_too_deep, !resolve_parent_too_deep by done.
  repeat split; try done.
  - by destruct data.
  - destruct (split_path cpath) as [|s segs] eqn:E; [simpl in Hlen; lia|].
    by rewrite resolve_parent_too_deep.
Qed.

Lemma C7_collection_paths_witness :
  let w := Examples.w_collection in
  let h := handle_of w {| ds_type := "collection";
                          ds_pubkey := get_pubkey_hex Examples.key;
                          ds_root_uuid := fresh_uuid Examples.w_empty;
                          ds_drivers := ["disk"];
                          ds_device_ids := ["laptop"; "phone"] |} None in
  local_api_connect backend w = true
  ∧ Api.backend_datastore_get backend w Examples.id None !! "error" = None
  ∧ Api.backend_datastore_get backend w Examples.id None !! "datastore"
    = Some (PDatastore h)
  ∧ ds_type h = "collection"
  ∧ "/item" ≠ "/"
  ∧ is_collection h = true
  ∧ (1 < length (split_path "/dir/item"))%nat
  ∧ (∃ msg, datastore_dir_list backend "collection" Examples.id "/item" false false
              None w = Returned (errno_result msg errno.EINVAL) w)
  ∧ datastore_getfile h "/dir/item" false false w = (failure InvalidArgument, w)
  ∧ datastore_putfile h "/dir/item" (PStr "hello") Examples.key true false w
    = (failure InvalidArgument, w).
Proof.
  intros w h.
  assert (Api.backend_datastore_get backend w Examples.id None !! "error" = None)
    as He by (vm_compute; reflexivity).
  assert (Api.backend_datastore_get backend w Examples.id None !! "datastore"
          = Some (PDatastore h)) as Hd by (vm_compute; reflexivity).
  assert ("/item" ≠ "/") as Hp by discriminate.
  assert (1 < length (split_path "/dir/item"))%nat as Hl by (vm_compute; lia).
  pose proof (C7_collection_paths backend "collection" Examples.id "/item" false false
                None w h h "/dir/item" w Examples.key (PStr "hello") true false
                eq_refl He Hd eq_refl Hp eq_refl Hl) as H.
  split; [reflexivity|]. split; [exact He|]. split; [exact Hd|].
  split; [reflexivity|]. split; [exact Hp|]. split; [reflexivity|].
  split; [exact Hl|].
  split; [exact (proj1 H)|].
  split; [exact (proj1 (proj2 (proj2 H)))|].
  exact (proj1 (proj2 (proj2 (proj2 H)))).
Defined.

(** * More of the commands

    Properties of the commands of [actions.py] for every backend: what
    they answer when the endpoint is down, when the lookup fails, when
    the record has the other type, when arguments are missing; what
    reaches the data module; and the commands on the device list. *)

Ltac run_with tac := repeat (progress (tac; cbn beta iota; simpl)).

(** ** Valid paths *)

Lemma valid_chars_range c : bool_decide (c ∈ valid_chars) = valid_char c.
Proof.
  destruct c as [b0 b1 b2 b3 b4 b5 b6 b7].
  destruct b0, b1, b2, b3, b4, b5, b6, b7; vm_compute; reflexivity.
Qed.

Lemma filter_str_length f s : (String.length (filter_str f s) <= String.length s)%nat.
Proof.
  induction s as [|c r IH]; simpl; [lia|]. destruct (f c); simpl; lia.
Qed.

Lemma filter_str_fixed f s : String.eqb (filter_str f s) s = all_chars f s.
Proof.
  induction s as [|c r IH]; simpl; [done|].
  destruct (f c); simpl.
  - by rewrite Ascii.eqb_refl.
  - apply String.eqb_neq. intros E.
    pose proof (filter_str_length f r) as Hl. rewrite E in Hl. simpl in Hl. lia.
Qed.

Lemma all_chars_ext f g s : (∀ c, f c = g c) → all_chars f s = all_chars g s.
Proof. intros H. induction s as [|c r IH]; simpl; [done|]. by rewrite H, IH. Qed.

Lemma all_chars_forall f s :
  all_chars f s = true ↔ ∀ c, c ∈ list_ascii_of_string s → f c = true.
Proof.
  induction s as [|c r IH]; simpl.
  - split; [|done]. intros _ c Hc. by apply elem_of_nil in Hc.
  - rewrite andb_true_iff, IH. split.
    + intros [Hc Hr] x [->|Hx]%elem_of_cons; auto.
    + intros H. split; [apply H; left|intros x Hx; apply H; by right].
Qed.

(** X1. [is_valid_path], computed as the source does (the characters of
    [string.printable] without tab, newline, carriage return, vertical
    tab and form feed are kept and the result is compared with the
    argument), accepts exactly the [str] values all of whose characters
    have a code from 32 to 126; it agrees with the range test
    [is_valid_path] used by the commands above. *)
Theorem is_valid_path_src_range path :
  is_valid_path_src path = is_valid_path path
  ∧ (is_valid_path_src path = true
     ↔ ∃ s, path = PStr s
            ∧ ∀ c, c ∈ list_ascii_of_string s →
                   (32 ≤ nat_of_ascii c ∧ nat_of_ascii c ≤ 126)%nat).
Proof.
  assert (is_valid_path_src path = is_valid_path path) as E.
  { destruct path as [| | |s| | |]; try reflexivity. simpl.
    rewrite filter_str_fixed. apply all_chars_ext, valid_chars_range. }
  split; [exact E|]. rewrite E.
  destruct path as [| | |s| | |]; simpl;
    try (split; [done|]; intros (? & ? & _); done).
  rewrite all_chars_forall. split.
  - intros H. exists s. split; [done|]. intros c Hc. specialize (H c Hc).
    unfold valid_char in H. apply andb_true_iff in H as [H1 H2].
    apply Nat.leb_le in H1, H2. done.
  - intros (s' & [= <-] & H) c Hc. destruct (H c Hc) as [H1 H2].
    unfold valid_char. apply andb_true_iff. split; by apply Nat.leb_le.
Qed.


(** ** The endpoint and the lookup *)

Section Endpoint.
Context {W : Type} (B : Backend W).

Lemma api_not_running_no_errno : api_not_running !! "errno" = None.
Proof. reflexivity. Qed.

(** X2. When [local_api_connect] finds no endpoint, every helper and
    every writing command answers the same object
    [{'error': 'API endpoint not running. ...'}], which has no ['errno'],
    and leaves the world as it was: no operation of the data module has
    run.  [datastore_file_put] is taken with [force_data], where no local
    file is read first. *)
Theorem endpoint_down_nothing_runs w :
  local_api_connect B w = false →
  (∀ dt id path ext force devs,
      datastore_file_get B dt id path ext force devs w = Returned api_not_running w
      ∧ datastore_dir_list B dt id path ext force devs w = Returned api_not_running w)
  ∧ (∀ dt id path ext force idata devs,
      datastore_path_stat B dt id path ext force idata devs w
      = Returned api_not_running w)
  ∧ (∀ dt id uuid idata devs,
      datastore_inode_getinode B dt id uuid idata devs w = Returned api_not_running w)
  ∧ (∀ dt k path data create force devs,
      datastore_file_put B dt k path data create true force devs w
      = Returned api_not_running w)
  ∧ (∀ dt k drivers,
      create_datastore_by_type B dt k drivers w = Returned api_not_running w)
  ∧ (∀ dt k force,
      delete_datastore_by_type B dt k force w = Returned api_not_running w)
  ∧ (∀ dt id devs,
      get_datastore_by_type B dt id devs w = Returned (inl api_not_running) w)
  ∧ (∀ args : dict, is_Some (args !! "path") → is_Some (args !! "privkey") →
      cli_datastore_mkdir B args w = Returned api_not_running w
      ∧ cli_datastore_rmtree B args w = Returned api_not_running w
      ∧ (is_Some (flag_of (args !! "force")) →
         cli_datastore_rmdir B args w = Returned api_not_running w)
      ∧ (is_Some (devs_of (args !! "device_ids")) →
         cli_datastore_deletefile B args w = Returned api_not_running w))
  ∧ api_not_running !! "error"
    = Some (PStr "API endpoint not running. Please start it with `api start`")
  ∧ api_not_running !! "errno" = None.
Proof.
  intros Hdown.
  repeat split; intros; try reflexivity.
  - unfold datastore_file_get. unfold_py. by rewrite Hdown.
  - unfold datastore_dir_list. unfold_py. by rewrite Hdown.
  - unfold datastore_path_stat. unfold_py. by rewrite Hdown.
  - unfold datastore_inode_getinode. unfold_py. by rewrite Hdown.
  - rewrite datastore_file_put_run. unfold stored_data.
    rewrite andb_false_r. by rewrite Hdown.
  - unfold create_datastore_by_type. unfold_py. by rewrite Hdown.
  - unfold delete_datastore_by_type. unfold_py. by rewrite Hdown.
  - unfold get_datastore_by_type. unfold_py. by rewrite Hdown.
  - destruct H as [pv Hp], H0 as [kv Hk].
    unfold cli_datastore_mkdir, mbind, M_bind. rewrite str_attr_eq, Hp. cbv beta iota. rewrite str_attr_eq, Hk. cbv beta iota.
    unfold_py. by rewrite Hdown.
  - destruct H as [pv Hp], H0 as [kv Hk].
    unfold cli_datastore_rmtree, mbind, M_bind. rewrite str_attr_eq, Hp. cbv beta iota. rewrite str_attr_eq, Hk. cbv beta iota.
    unfold_py. by rewrite Hdown.
  - destruct H as [pv Hp], H0 as [kv Hk], H1 as [fl Hf].
    unfold cli_datastore_rmdir, mbind, M_bind. rewrite str_attr_eq, Hp. cbv beta iota. rewrite str_attr_eq, Hk. cbv beta iota.
    unfold flag_of in Hf. unfold getattr_default.
    destruct (args !! "force") as [[]|]; try discriminate; simpl;
      unfold_py; by rewrite Hdown.
  - destruct H as [pv Hp], H0 as [kv Hk], H1 as [ds Hd].
    unfold cli_datastore_deletefile, mbind, M_bind.
    rewrite str_attr_eq, Hp. cbv beta iota. rewrite str_attr_eq, Hk. cbv beta iota.
    rewrite opt_device_ids_eq, Hd. cbv beta iota.
    unfold_py. by rewrite Hdown.
Qed.

(** X3. When the lookup of the datastore answers an error,
    [datastore_file_get] and [datastore_dir_list] return that answer with
    ['errno'] set to [EPERM] unless it has one already,
    [datastore_path_stat] and [datastore_inode_getinode] return it as it
    is, and [cli_datastore_deletefile] returns it with ['errno']
    overwritten by [EPERM]. *)
Theorem lookup_failure_errno w id devs info :
  local_api_connect B w = true →
  Api.backend_datastore_get B w id devs = info →
  is_Some (info !! "error") →
  (∀ dt path ext force,
      datastore_file_get B dt id path ext force devs w
      = Returned (<[ "errno" := default (PInt errno.EPERM) (info !! "errno") ]> info) w
      ∧ datastore_dir_list B dt id path ext force devs w
        = Returned (<[ "errno" := default (PInt errno.EPERM) (info !! "errno") ]> info) w)
  ∧ (∀ dt path ext force idata,
      datastore_path_stat B dt id path ext force idata devs w = Returned info w)
  ∧ (∀ dt uuid idata,
      datastore_inode_getinode B dt id uuid idata devs w = Returned info w)
  ∧ (∀ (args : dict) pv kv,
      args !! "path" = Some pv → args !! "privkey" = Some kv →
      devs_of (args !! "device_ids") = Some devs →
      id = Api.datastore_get_id B (Api.get_pubkey_hex B (py_str kv)) →
      cli_datastore_deletefile B args w
      = Returned (<[ "errno" := PInt errno.EPERM ]> info) w).
Proof.
  intros Hup Hinfo Herr. pose proof Herr as Herr'. apply dict_has_true in Herr'.
  split; [|split; [|split]].
  - intros dt path ext force.
    unfold datastore_file_get, datastore_dir_list. unfold_py.
    run_with ltac:(rewrite ?Hup, ?Hinfo, ?Herr').
    unfold dict_has. destruct (info !! "errno") as [v|] eqn:Ev; simpl;
      [rewrite insert_id by done|]; done.
  - intros. unfold datastore_path_stat. unfold_py. by run_with ltac:(rewrite ?Hup, ?Hinfo, ?Herr').
  - intros. unfold datastore_inode_getinode. unfold_py. by run_with ltac:(rewrite ?Hup, ?Hinfo, ?Herr').
  - intros args pv kv Hp Hk Hd ->.
    unfold cli_datastore_deletefile, mbind, M_bind.
    rewrite str_attr_eq, Hp. cbv beta iota. rewrite str_attr_eq, Hk. cbv beta iota.
    rewrite opt_device_ids_eq, Hd. cbv beta iota.
    unfold_py. by run_with ltac:(rewrite ?Hup, ?Hinfo, ?Herr').
Qed.

(** X4. Every error that [datastore_dir_list] returns with the
    endpoint up carries an ['errno'], provided the errors of
    [datastore_listdir] do. *)
Theorem dir_list_errors_carry_errno dt id path ext force devs w r w' :
  local_api_connect B w = true →
  (∀ ds, let res := (Api.datastore_listdir B ds path ext force w).1 in
         is_Some (res !! "error") → is_Some (res !! "errno")) →
  datastore_dir_list B dt id path ext force devs w = Returned r w' →
  is_Some (r !! "error") →
  is_Some (r !! "errno").
Proof.
  intros Hup Hlist. unfold datastore_dir_list. unfold_py. rewrite Hup. simpl.
  destruct (dict_has (Api.backend_datastore_get B w id devs) "error") eqn:E1.
  { destruct (dict_has _ "errno") eqn:E2; simpl.
    - intros [= <- <-] _. by apply dict_has_true.
    - intros [= <- <-] _. rewrite lookup_insert_eq. eauto. }
  destruct (Api.backend_datastore_get B w id devs !! "datastore") as [[]|]; try done.
  simpl.
  destruct (negb (ds_type d =? dt)%string); simpl.
  { intros [= <- <-] _. unfold errno_result. rewrite lookup_insert_eq. eauto. }
  destruct ((dt =? "collection")%string && negb (path =? "/")%string); simpl.
  { intros [= <- <-] _. unfold errno_result. rewrite lookup_insert_eq. eauto. }
  specialize (Hlist d). destruct (Api.datastore_listdir B d path ext force w) as [res w1].
  intros [= <- <-]. exact Hlist.
Qed.

(** X5. A record of the other type is refused before any operation of
    the data module runs: [datastore_file_get], [datastore_path_stat],
    [datastore_inode_getinode], [get_datastore_by_type] and
    [delete_datastore_by_type] answer ['<id> is a <type>'] without an
    ['errno'], [datastore_dir_list] the same message with [EINVAL]; the
    world is unchanged. *)
Theorem type_mismatch_rejected w id devs info ds dt :
  local_api_connect B w = true →
  Api.backend_datastore_get B w id devs = info →
  info !! "error" = None →
  info !! "datastore" = Some (PDatastore ds) →
  ds_type ds ≠ dt →
  let msg := is_a id (ds_type ds) in
  (∀ path ext force,
      datastore_file_get B dt id path ext force devs w = Returned (error_result msg) w
      ∧ datastore_dir_list B dt id path ext force devs w
        = Returned (errno_result msg errno.EINVAL) w)
  ∧ (∀ path ext force idata,
      datastore_path_stat B dt id path ext force idata devs w
      = Returned (error_result msg) w)
  ∧ (∀ uuid idata,
      datastore_inode_getinode B dt id uuid idata devs w = Returned (error_result msg) w)
  ∧ get_datastore_by_type B dt id devs w = Returned (inl (error_result msg)) w
  ∧ (∀ k force,
      devs = None → id = Api.datastore_get_id B (Api.get_pubkey_hex B k) →
      delete_datastore_by_type B dt k force w = Returned (error_result msg) w).
Proof.
  intros Hup Hinfo Herr Hds Hty msg. apply dict_has_false in Herr.
  assert (negb (ds_type ds =? dt)%string = true) as Hne.
  { apply negb_true_iff. by apply String.eqb_neq. }
  repeat split; intros.
  - unfold datastore_file_get. unfold_py. by run_with ltac:(rewrite ?Hup, ?Hinfo, ?Herr, ?Hds, ?Hne).
  - unfold datastore_dir_list. unfold_py. by run_with ltac:(rewrite ?Hup, ?Hinfo, ?Herr, ?Hds, ?Hne).
  - unfold datastore_path_stat. unfold_py. by run_with ltac:(rewrite ?Hup, ?Hinfo, ?Herr, ?Hds, ?Hne).
  - unfold datastore_inode_getinode. unfold_py. by run_with ltac:(rewrite ?Hup, ?Hinfo, ?Herr, ?Hds, ?Hne).
  - unfold get_datastore_by_type. unfold_py. by run_with ltac:(rewrite ?Hup, ?Hinfo, ?Herr, ?Hds, ?Hne).
  - subst devs id. unfold delete_datastore_by_type. unfold_py.
    by run_with ltac:(rewrite ?Hup, ?Hinfo, ?Herr, ?Hds, ?Hne).
Qed.

(** X6. The writing commands do not look at the type of the record:
    once the lookup has answered a record, of whatever type,
    [cli_datastore_mkdir], [cli_datastore_rmtree], [cli_datastore_rmdir]
    and [cli_datastore_deletefile] return what the operation of the data
    module on that record returns, unchanged.  Only
    [cli_datastore_deletefile] passes the device list to the lookup. *)
Theorem write_commands_skip_type_check (args : dict) pv kv w ds :
  args !! "path" = Some pv → args !! "privkey" = Some kv →
  local_api_connect B w = true →
  let id := Api.datastore_get_id B (Api.get_pubkey_hex B (py_str kv)) in
  (∀ devs, Api.backend_datastore_get B w id devs !! "error" = None
           ∧ Api.backend_datastore_get B w id devs !! "datastore"
             = Some (PDatastore (ds devs))) →
  cli_datastore_mkdir B args w
  = (let '(res, w') := Api.datastore_mkdir B (ds None) (py_str pv) (py_str kv) w in
     Returned res w')
  ∧ cli_datastore_rmtree B args w
    = (let '(res, w') := Api.datastore_rmtree B (ds None) (py_str pv) (py_str kv) w in
       Returned res w')
  ∧ (∀ force, flag_of (args !! "force") = Some force →
       cli_datastore_rmdir B args w
       = (let '(res, w') :=
            Api.datastore_rmdir B (ds None) (py_str pv) (py_str kv) force w in
          Returned res w'))
  ∧ (∀ devs, devs_of (args !! "device_ids") = Some devs →
       ∃ force,
         cli_datastore_deletefile B args w
         = (let '(res, w') :=
              Api.datastore_deletefile B (ds devs) (py_str pv) (py_str kv) force w in
            Returned res w')).
Proof.
  intros Hp Hk Hup id Hds.
  assert (∀ devs, dict_has (Api.backend_datastore_get B w id devs) "error" = false)
    as Hne by (intros devs; apply dict_has_false, Hds).
  assert (∀ devs, Api.backend_datastore_get B w id devs !! "datastore"
                  = Some (PDatastore (ds devs))) as Hd by (intros devs; apply Hds).
  subst id.
  split; [|split; [|split]].
  - unfold cli_datastore_mkdir, mbind, M_bind.
    rewrite str_attr_eq, Hp. cbv beta iota. rewrite str_attr_eq, Hk. cbv beta iota.
    unfold_py. rewrite Hup. simpl. rewrite Hne. simpl. rewrite Hd. simpl.
    rewrite String.eqb_refl. simpl.
    destruct (Api.datastore_mkdir B (ds None) (py_str pv) (py_str kv) w) as [res w'].
    simpl. by destruct (dict_has res "error").
  - unfold cli_datastore_rmtree, mbind, M_bind.
    rewrite str_attr_eq, Hp. cbv beta iota. rewrite str_attr_eq, Hk. cbv beta iota.
    unfold_py. rewrite Hup. simpl. rewrite Hne. simpl. rewrite Hd. simpl.
    rewrite String.eqb_refl. simpl.
    by destruct (Api.datastore_rmtree B (ds None) (py_str pv) (py_str kv) w).
  - intros force Hf.
    unfold cli_datastore_rmdir, mbind, M_bind.
    rewrite str_attr_eq, Hp. cbv beta iota. rewrite str_attr_eq, Hk. cbv beta iota.
    unfold flag_of in Hf. unfold getattr_default.
    destruct (args !! "force") as [[]|]; try discriminate; simpl;
      injection Hf as <-; unfold_py; rewrite Hup; simpl; rewrite Hne; simpl;
      rewrite Hd; simpl; rewrite String.eqb_refl; reflexivity.
  - intros devs Hdv.
    unfold cli_datastore_deletefile, mbind, M_bind.
    rewrite str_attr_eq, Hp. cbv beta iota. rewrite str_attr_eq, Hk. cbv beta iota.
    rewrite opt_device_ids_eq, Hdv. cbv beta iota.
    unfold_py. rewrite Hup. simpl. rewrite Hne. simpl. rewrite Hd. simpl.
    eexists. reflexivity.
Qed.
End Endpoint.


(** ** Arguments *)

Section Returns.
Context {W : Type} (B : Backend W).
Hypothesis Hok : replies_ok B.

(** After the lookup: the reply is an error, or a record is at hand. *)
Lemma lookup_cases w id devs :
  dict_has (Api.backend_datastore_get B w id devs) "error" = true
  ∨ (dict_has (Api.backend_datastore_get B w id devs) "error" = false
     ∧ ∃ ds, Api.backend_datastore_get B w id devs !! "datastore"
             = Some (PDatastore ds)).
Proof.
  destruct (dict_has _ "error") eqn:E; [by left|right]. split; [done|].
  destruct (Hok w id devs) as [He|Hd]; [|done].
  apply dict_has_true in He. congruence.
Qed.

Ltac lookup w id devs :=
  destruct (lookup_cases w id devs) as [-> | [-> [? ->]]]; simpl.

Ltac finish :=
  repeat match goal with
    | |- context [if ?b then _ else _] => destruct b; simpl
    | |- context [let '(_, _) := ?x in _] => destruct x; simpl
    end; eauto.

Lemma datastore_file_get_returns dt id path ext force devs w :
  ∃ r w', datastore_file_get B dt id path ext force devs w = Returned r w'.
Proof.
  unfold datastore_file_get. unfold_py.
  destruct (local_api_connect B w); simpl; [|eauto].
  lookup w id devs; finish.
Qed.

Lemma datastore_dir_list_returns dt id path ext force devs w :
  ∃ r w', datastore_dir_list B dt id path ext force devs w = Returned r w'.
Proof.
  unfold datastore_dir_list. unfold_py.
  destruct (local_api_connect B w); simpl; [|eauto].
  lookup w id devs; finish.
Qed.

Lemma datastore_path_stat_returns dt id path ext force idata devs w :
  ∃ r w', datastore_path_stat B dt id path ext force idata devs w = Returned r w'.
Proof.
  unfold datastore_path_stat. unfold_py.
  destruct (local_api_connect B w); simpl; [|eauto].
  lookup w id devs; finish.
Qed.

Lemma datastore_file_put_returns dt k path data create fd force devs w :
  ∃ r w', datastore_file_put B dt k path data create fd force devs w = Returned r w'.
Proof.
  rewrite datastore_file_put_run.
  destruct (stored_data B w data fd); [|eauto].
  destruct (local_api_connect B w); simpl; [|eauto].
  lookup w (Api.datastore_get_id B (Api.get_pubkey_hex B k)) devs; finish.
Qed.

Lemma create_datastore_by_type_returns dt k drivers w :
  ∃ r w', create_datastore_by_type B dt k drivers w = Returned r w'.
Proof. unfold create_datastore_by_type. unfold_py. finish. Qed.

Lemma delete_datastore_by_type_returns dt k force w :
  ∃ r w', delete_datastore_by_type B dt k force w = Returned r w'.
Proof.
  unfold delete_datastore_by_type, _remove_datastore. unfold_py.
  destruct (local_api_connect B w); simpl; [|eauto].
  lookup w (Api.datastore_get_id B (Api.get_pubkey_hex B k)) (@None (list string)).
  - eauto.
  - destruct (negb _); simpl; [eauto|].
    destruct (Api.datastore_rmtree B x "/" k w) as [res w1]; simpl.
    destruct (dict_has res "error" && negb force); simpl; [eauto|].
    destruct (Api.delete_datastore B x k w1) as [res2 w2]; simpl.
    destruct (dict_has res2 "error"); eauto.
Qed.

(** X7. With the required attributes present and the optional ones of
    type [str], the datastore commands return a result object: none of
    them raises, whatever the endpoint and the data module answer, as
    long as a lookup that reports no error holds a record under
    ['datastore']. *)
Theorem datastore_commands_return (args : dict) w :
  (is_Some (args !! "path") → is_Some (args !! "privkey") →
     (∃ r w', cli_datastore_mkdir B args w = Returned r w')
     ∧ (∃ r w', cli_datastore_rmtree B args w = Returned r w')
     ∧ (is_Some (flag_of (args !! "force")) →
        ∃ r w', cli_datastore_rmdir B args w = Returned r w')
     ∧ (is_Some (devs_of (args !! "device_ids")) →
        (∃ r w', cli_datastore_deletefile B args w = Returned r w')
        ∧ (is_Some (args !! "data") →
           ∀ force_data, ∃ r w',
             cli_datastore_putfile B args force_data w = Returned r w')))
  ∧ (is_Some (args !! "privkey") →
     (∃ r w', cli_delete_datastore B args w = Returned r w')
     ∧ (is_Some (devs_of (args !! "drivers")) →
        ∃ r w', cli_create_datastore B args w = Returned r w'))
  ∧ (is_Some (args !! "datastore_id") → is_Some (args !! "path") →
     is_Some (flag_of (args !! "extended")) → is_Some (flag_of (args !! "force")) →
     is_Some (devs_of (args !! "device_ids")) →
     (∃ r w', cli_datastore_getfile B args w = Returned r w')
     ∧ (∃ r w', cli_datastore_listdir B args w = Returned r w')
     ∧ (is_Some (flag_of (args !! "idata")) →
        ∃ r w', cli_datastore_stat B args w = Returned r w')).
Proof.
  split; [|split].
  - intros [pv Hp] [kv Hk].
    split; [|split; [|split]].
    + unfold cli_datastore_mkdir, mbind, M_bind.
      rewrite str_attr_eq, Hp. cbv beta iota. rewrite str_attr_eq, Hk. cbv beta iota.
      unfold_py. destruct (local_api_connect B w); simpl; [|eauto].
      lookup w (Api.datastore_get_id B (Api.get_pubkey_hex B (py_str kv)))
        (@None (list string)); [eauto|].
      rewrite String.eqb_refl. simpl. finish.
    + unfold cli_datastore_rmtree, mbind, M_bind.
      rewrite str_attr_eq, Hp. cbv beta iota. rewrite str_attr_eq, Hk. cbv beta iota.
      unfold_py. destruct (local_api_connect B w); simpl; [|eauto].
      lookup w (Api.datastore_get_id B (Api.get_pubkey_hex B (py_str kv)))
        (@None (list string)); [eauto|].
      rewrite String.eqb_refl. simpl. finish.
    + intros [fl Hf].
      unfold cli_datastore_rmdir, mbind, M_bind.
      rewrite str_attr_eq, Hp. cbv beta iota. rewrite str_attr_eq, Hk. cbv beta iota.
      unfold flag_of in Hf. unfold getattr_default.
      destruct (args !! "force") as [[]|]; try discriminate; simpl;
        unfold_py; (destruct (local_api_connect B w); simpl; [|eauto]);
        (lookup w (Api.datastore_get_id B (Api.get_pubkey_hex B (py_str kv)))
           (@None (list string)); [eauto|]);
        rewrite String.eqb_refl; simpl; finish.
    + intros [devs Hd]. split.
      * unfold cli_datastore_deletefile, mbind, M_bind.
        rewrite str_attr_eq, Hp. cbv beta iota. rewrite str_attr_eq, Hk. cbv beta iota.
        rewrite opt_device_ids_eq, Hd. cbv beta iota.
        unfold_py. destruct (local_api_connect B w); simpl; [|eauto].
        lookup w (Api.datastore_get_id B (Api.get_pubkey_hex B (py_str kv))) devs;
          finish.
      * intros [dv Hdv] fd. rewrite cli_datastore_putfile_run, Hp, Hdv, Hk, Hd.
        apply datastore_file_put_returns.
  - intros [kv Hk]. split.
    + unfold cli_delete_datastore, mbind, M_bind.
      rewrite str_attr_eq, Hk. cbv beta iota. unfold hasattr.
      destruct (args !! "force") as [fv|] eqn:Ef; simpl.
      * unfold getattr. rewrite Ef. simpl. apply delete_datastore_by_type_returns.
      * apply delete_datastore_by_type_returns.
    + intros [dr Hdr].
      unfold cli_create_datastore, mbind, M_bind.
      rewrite str_attr_eq, Hk. cbv beta iota.
      unfold devs_of in Hdr. unfold getattr_default.
      destruct (args !! "drivers") as [v|]; simpl.
      * destruct (py_truthy v); simpl.
        -- destruct v; try discriminate. simpl. apply create_datastore_by_type_returns.
        -- apply create_datastore_by_type_returns.
      * apply create_datastore_by_type_returns.
  - intros [iv Hi] [pv Hp] [ext He] [fo Hf] [devs Hd].
    split; [|split].
    + rewrite cli_datastore_getfile_run, Hi, Hp, He, Hf, Hd.
      apply datastore_file_get_returns.
    + unfold cli_datastore_listdir, mbind, M_bind.
      rewrite str_attr_eq, Hi. cbv beta iota. rewrite str_attr_eq, Hp. cbv beta iota.
      rewrite opt_flag_eq, He. cbv beta iota. rewrite opt_flag_eq, Hf. cbv beta iota.
      rewrite opt_device_ids_eq, Hd. cbv beta iota.
      apply datastore_dir_list_returns.
    + intros [idv Hid]. rewrite cli_datastore_stat_run, Hi, Hp, He, Hf, Hid, Hd.
      apply datastore_path_stat_returns.
Qed.
End Returns.


Section BadArguments.
Context {W : Type} (B : Backend W).

(** X8. A missing required attribute, or an optional attribute on which
    the command calls [lower] or [split] that is not a [str], ends the
    command in [AttributeError] before the endpoint is contacted: the
    world is unchanged. *)
Theorem bad_arguments_raise_attribute_error (args : dict) w :
  (args !! "path" = None ∨ args !! "privkey" = None →
     cli_datastore_mkdir B args w = Raised AttributeError w
     ∧ cli_datastore_rmdir B args w = Raised AttributeError w
     ∧ cli_datastore_rmtree B args w = Raised AttributeError w
     ∧ cli_datastore_deletefile B args w = Raised AttributeError w)
  ∧ (args !! "path" = None ∨ args !! "data" = None ∨ args !! "privkey" = None
     ∨ devs_of (args !! "device_ids") = None →
     ∀ force_data, cli_datastore_putfile B args force_data w = Raised AttributeError w)
  ∧ (flag_of (args !! "force") = None →
     cli_datastore_rmdir B args w = Raised AttributeError w)
  ∧ (args !! "datastore_id" = None ∨ args !! "path" = None
     ∨ flag_of (args !! "extended") = None ∨ flag_of (args !! "force") = None
     ∨ devs_of (args !! "device_ids") = None →
     cli_datastore_getfile B args w = Raised AttributeError w
     ∧ cli_datastore_listdir B args w = Raised AttributeError w
     ∧ cli_datastore_stat B args w = Raised AttributeError w)
  ∧ (args !! "privkey" = None →
     cli_create_datastore B args w = Raised AttributeError w
     ∧ cli_delete_datastore B args w = Raised AttributeError w).
Proof.
  split; [|split; [|split; [|split]]].
  - intros Hm.
    unfold cli_datastore_mkdir, cli_datastore_rmdir, cli_datastore_rmtree,
      cli_datastore_deletefile, mbind, M_bind.
    rewrite !str_attr_eq.
    destruct (args !! "path") as [pv|] eqn:Ep; [|done].
    destruct Hm as [?|Hk]; [done|].
    rewrite !str_attr_eq, Hk. done.
  - intros Hm fd. rewrite cli_datastore_putfile_run.
    destruct (args !! "path"), (args !! "data"), (args !! "privkey"),
      (devs_of (args !! "device_ids")); try done.
    destruct Hm as [?|[?|[?|?]]]; done.
  - intros Hf.
    unfold cli_datastore_rmdir, mbind, M_bind.
    rewrite str_attr_eq. destruct (args !! "path") as [pv|]; [|done].
    rewrite str_attr_eq. destruct (args !! "privkey") as [kv|]; [|done].
    unfold flag_of in Hf. unfold getattr_default.
    destruct (args !! "force") as [[]|]; try discriminate; done.
  - intros Hm. split; [|split].
    + rewrite cli_datastore_getfile_run.
      destruct (args !! "datastore_id"), (args !! "path"),
        (flag_of (args !! "extended")), (flag_of (args !! "force")),
        (devs_of (args !! "device_ids")); try done.
      destruct Hm as [?|[?|[?|[?|?]]]]; done.
    + unfold cli_datastore_listdir, mbind, M_bind.
      rewrite str_attr_eq. destruct (args !! "datastore_id"); [|done].
      rewrite str_attr_eq. destruct (args !! "path"); [|done].
      rewrite opt_flag_eq. destruct (flag_of (args !! "extended")); [|done].
      rewrite opt_flag_eq. destruct (flag_of (args !! "force")); [|done].
      rewrite opt_device_ids_eq. destruct (devs_of (args !! "device_ids")); [|done].
      destruct Hm as [?|[?|[?|[?|?]]]]; done.
    + rewrite cli_datastore_stat_run.
      destruct (args !! "datastore_id"), (args !! "path"),
        (flag_of (args !! "extended")), (flag_of (args !! "force")),
        (flag_of (args !! "idata")), (devs_of (args !! "device_ids")); try done;
        destruct Hm as [?|[?|[?|[?|?]]]]; done.
  - intros Hk. unfold cli_create_datastore, cli_delete_datastore, mbind, M_bind.
    by rewrite !str_attr_eq, Hk.
Qed.
End BadArguments.


(** ** Records: lookup, creation, deletion, and what is stored *)

Section Records.
Context {W : Type} (B : Backend W).

(** X9. [cli_create_collection] and [cli_delete_collection] never return:
    they pass [proxy], [password] and [master_data_privkey] to
    [create_datastore_by_type] and [delete_datastore_by_type], which take
    none of them, and [cli_delete_collection] gives [force] twice.  With
    the documented argument [collection_domain] present the exception is
    [TypeError]; the world is unchanged. *)
Theorem collection_lifecycle_raises (args : dict) proxy password master w :
  (∃ e, cli_create_collection B args proxy password master w = Raised e w)
  ∧ (∃ e, cli_delete_collection B args proxy password master w = Raised e w)
  ∧ (is_Some (args !! "collection_domain") →
     cli_create_collection B args proxy password master w = Raised TypeError w
     ∧ cli_delete_collection B args proxy password master w = Raised TypeError w).
Proof.
  unfold cli_create_collection, cli_delete_collection. unfold_py.
  destruct proxy, password; simpl;
    (destruct (args !! "collection_domain") as [v|]; simpl;
     (split; [eauto|]; split; [eauto|]; intros [? ?]; done)).
Qed.

Lemma get_datastore_by_type_inr dt id devs w ds w' :
  get_datastore_by_type B dt id devs w = Returned (inr ds) w'
  ↔ w' = w ∧ local_api_connect B w = true
    ∧ Api.backend_datastore_get B w id devs !! "error" = None
    ∧ Api.backend_datastore_get B w id devs !! "datastore" = Some (PDatastore ds)
    ∧ ds_type ds = dt.
Proof.
  unfold get_datastore_by_type. unfold_py.
  destruct (local_api_connect B w); simpl; [|by split; [|intros (?&?&?)]].
  destruct (dict_has _ "error") eqn:E1; simpl.
  { split; [done|]. intros (_ & _ & He & _). apply dict_has_false in He. congruence. }
  apply dict_has_false in E1.
  destruct (Api.backend_datastore_get B w id devs !! "datastore") as [v|] eqn:E2; simpl.
  2:{ split; [done|]. by intros (_ & _ & _ & ? & _). }
  destruct v; simpl; try (split; [done|]; by intros (_ & _ & _ & ? & _)).
  destruct (String.eqb_spec (ds_type d) dt) as [Hty|Hty]; simpl.
  - split.
    + intros [= <- <-]. done.
    + intros (-> & _ & _ & [= ->] & _). done.
  - split; [done|]. intros (_ & _ & _ & [= ->] & ?). done.
Qed.

(** X10. [get_datastore_by_type] returns a record exactly when the
    endpoint is up and the lookup answers, without error, a record of the
    requested type; the world is unchanged.  [cli_get_collection] asks
    for a ['collection'] with the default device list ([None]),
    [cli_get_datastore] without [device_ids] for a ['datastore'] with the
    empty device list. *)
Theorem get_datastore_by_type_record :
  (∀ dt id devs w ds w',
      get_datastore_by_type B dt id devs w = Returned (inr ds) w'
      ↔ w' = w ∧ local_api_connect B w = true
        ∧ Api.backend_datastore_get B w id devs !! "error" = None
        ∧ Api.backend_datastore_get B w id devs !! "datastore" = Some (PDatastore ds)
        ∧ ds_type ds = dt)
  ∧ (∀ (args : dict) v w,
      args !! "collection_name" = Some v →
      cli_get_collection B args w
      = get_datastore_by_type B "collection" (py_str v) None w)
  ∧ (∀ (args : dict) v w,
      args !! "datastore_id" = Some v → args !! "device_ids" = None →
      cli_get_datastore B args w
      = get_datastore_by_type B "datastore" (py_str v) (Some []) w).
Proof.
  split; [apply get_datastore_by_type_inr|]. split.
  - intros args v w Hv. unfold cli_get_collection, mbind, M_bind.
    by rewrite str_attr_eq, Hv.
  - intros args v w Hv Hd. unfold cli_get_datastore, mbind, M_bind.
    rewrite str_attr_eq, Hv. cbv beta iota. unfold hasattr. by rewrite Hd.
Qed.

(** X11. What [datastore_file_put] stores: the data itself when
    [force_data] is set, when the data is no valid path or when no local
    file has that name; the content of the local file otherwise; and when
    that file cannot be read, the command answers ['Failed to read ...']
    without contacting the endpoint. *)
Theorem file_put_local_file dt k path data create force_data force devs w :
  (force_data = true ∨ is_valid_path data = false
   ∨ os_path_exists B w (py_str data) = false →
   datastore_file_put B dt k path data create force_data force devs w
   = datastore_file_put B dt k path data create true force devs w)
  ∧ (∀ content,
       force_data = false → is_valid_path data = true →
       os_path_exists B w (py_str data) = true →
       open_read B w (py_str data) = Some content →
       datastore_file_put B dt k path data create force_data force devs w
       = datastore_file_put B dt k path (PStr content) create true force devs w)
  ∧ (force_data = false → is_valid_path data = true →
     os_path_exists B w (py_str data) = true →
     open_read B w (py_str data) = None →
     datastore_file_put B dt k path data create force_data force devs w
     = Returned (error_result ("Failed to read " ++ dquote ++ py_str data ++ dquote)) w).
Proof.
  rewrite !datastore_file_put_run. unfold stored_data.
  split; [|split].
  - destruct force_data, (is_valid_path data), (os_path_exists B w (py_str data));
      simpl; try done; intros [?|[?|?]]; done.
  - intros content -> -> -> ->. simpl.
    rewrite datastore_file_put_run. unfold stored_data. by rewrite andb_false_r.
  - intros -> -> -> ->. done.
Qed.

(** X12. [create_datastore_by_type] answers [{'status': True}] exactly
    when the endpoint is up, the lookup of the id derived from the key
    answers an error (no such datastore yet), [make_datastore_info]
    answers no error and [put_datastore] answers no error; the world is
    then the one [put_datastore] leaves. *)
Theorem create_datastore_succeeds_iff dt k drivers w w' :
  let id := Api.datastore_get_id B (Api.get_pubkey_hex B k) in
  let info := Api.make_datastore_info B w dt (Api.get_pubkey_hex B k) drivers in
  create_datastore_by_type B dt k drivers w = Returned status_true w'
  ↔ local_api_connect B w = true
    ∧ is_Some (Api.backend_datastore_get B w id None !! "error")
    ∧ info !! "error" = None
    ∧ ∃ res, Api.put_datastore B info k w = (res, w') ∧ res !! "error" = None.
Proof.
  intros id info. subst id info. unfold create_datastore_by_type. unfold_py.
  assert (∀ (d : dict) (v v' : W), is_Some (d !! "error") →
            Returned d v = Returned status_true v' → False) as Hne.
  { intros d v v' [x Hx] [= -> _]. done. }
  destruct (local_api_connect B w); simpl.
  2:{ split; [intros E|by intros (?&?)]. exfalso. eapply Hne, E. by eexists. }
  destruct (dict_has (Api.backend_datastore_get B w _ None) "error") eqn:E1; simpl.
  2:{ split.
      - intros E. exfalso. eapply Hne, E. by eexists.
      - intros (_ & He & _). apply dict_has_true in He. congruence. }
  apply dict_has_true in E1.
  remember (Api.make_datastore_info B w dt (Api.get_pubkey_hex B k) drivers) as info
    eqn:Hinfo. clear Hinfo.
  destruct (dict_has info "error") eqn:E2; simpl.
  { apply dict_has_true in E2. split.
    - intros E. exfalso. by eapply Hne, E.
    - intros (_ & _ & He & _). rewrite He in E2. by destruct E2. }
  apply dict_has_false in E2.
  destruct (Api.put_datastore B info k w) as [res w1] eqn:Ep.
  destruct (dict_has res "error") eqn:E3; simpl.
  - apply dict_has_true in E3. split.
    + intros E. exfalso. by eapply Hne, E.
    + intros (_ & _ & _ & res' & [= <- <-] & He). rewrite He in E3. by destruct E3.
  - apply dict_has_false in E3. split.
    + intros [= <-]. split; [done|]. split; [done|]. split; [done|]. by exists res.
    + intros (_ & _ & _ & res' & [= <- <-] & _). done.
Qed.

(** X13. [force] matters to [delete_datastore_by_type] only once
    [datastore_rmtree] has failed: when removing the tree of the record
    found succeeds, the outcome with and without [force] is the same. *)
Theorem delete_force_only_after_failed_rmtree dt k w :
  (∀ ds, Api.backend_datastore_get B w
           (Api.datastore_get_id B (Api.get_pubkey_hex B k)) None !! "datastore"
         = Some (PDatastore ds) →
         (Api.datastore_rmtree B ds "/" k w).1 !! "error" = None) →
  delete_datastore_by_type B dt k true w = delete_datastore_by_type B dt k false w.
Proof.
  intros Hok. unfold delete_datastore_by_type, _remove_datastore. unfold_py.
  destruct (local_api_connect B w); simpl; [|done].
  destruct (dict_has _ "error"); simpl; [done|].
  destruct (_ !! "datastore") as [[]|] eqn:Ed; simpl; try done.
  destruct (negb _); simpl; [done|].
  specialize (Hok d eq_refl). destruct (Api.datastore_rmtree B d "/" k w) as [res w1].
  simpl in Hok. apply dict_has_false in Hok. rewrite Hok. done.
Qed.
End Records.


(** ** The device list *)

Lemma in_list_elem s l : in_list s l = true ↔ s ∈ l.
Proof.
  unfold in_list. rewrite existsb_exists. split.
  - intros (x & Hx & E). apply String.eqb_eq in E. subst. by apply list_elem_of_In.
  - intros H. exists s. split; [by apply list_elem_of_In|apply String.eqb_refl].
Qed.

Lemma list_remove_first_split x l :
  x ∈ l → ∃ l1 l2, l = (l1 ++ (x :: l2))%list ∧ (x ∉ l1)
                   ∧ list_remove_first x l = (l1 ++ l2)%list.
Proof.
  induction l as [|y r IH]; intros Hin; [by apply elem_of_nil in Hin|]. simpl.
  destruct (String.eqb_spec x y) as [->|Hne].
  - exists [], r. split; [done|]. split; [apply not_elem_of_nil|done].
  - apply elem_of_cons in Hin as [?|Hin]; [done|].
    destruct (IH Hin) as (l1 & l2 & -> & Hn & ->).
    exists (y :: l1), l2. split; [done|]. split; [|done].
    intros [?|?]%elem_of_cons; done.
Qed.

Section Devices.
Context {W : Type} (C : Config W).

(** X14. [cli_remove_device_id] writes nothing and answers
    [{'status': True}] when the device is not in the list; otherwise it
    writes the list without the first occurrence of the device, joined by
    commas, to [default_devices] of section [blockstack-client], and
    answers ['Failed to remove device'] when the write fails. *)
Theorem remove_device_id_first_occurrence (args : dict) d ids w :
  args !! "device_id" = Some d →
  get_all_device_ids C w = Some ids →
  (py_str d ∉ ids → cli_remove_device_id C args w = Returned status_true w)
  ∧ (py_str d ∈ ids →
     ∃ l1 l2, ids = (l1 ++ (py_str d :: l2))%list ∧ (py_str d ∉ l1)
       ∧ cli_remove_device_id C args w
         = let '(ok, w') :=
             write_config_field C "blockstack-client" "default_devices"
               (String.concat "," (l1 ++ l2)%list) w in
           Returned (if ok then status_true
                     else error_result "Failed to remove device") w').
Proof.
  intros Hd Hids.
  unfold cli_remove_device_id, try_except_assertion, read_device_ids,
    write_default_devices, mbind, M_bind.
  rewrite str_attr_eq, Hd. cbv beta iota. rewrite Hids. cbv beta iota.
  split.
  - intros Hn. destruct (in_list (py_str d) ids) eqn:E; [|done].
    apply in_list_elem in E. done.
  - intros Hin. destruct (list_remove_first_split _ _ Hin) as (l1 & l2 & E & Hn & Hr).
    exists l1, l2. split; [done|]. split; [done|].
    apply in_list_elem in Hin. rewrite Hin. simpl. rewrite Hr.
    unfold call. destruct (write_config_field _ _ _ _ _) as [[] w']; done.
Qed.

(** X15. [cli_add_device_id] writes a list without duplicates whose
    elements are those of the old list and the new device, joined by
    commas, given that a Python [set] lists each of its elements once. *)
Theorem add_device_id_set (args : dict) d ids w :
  set_semantics C →
  args !! "device_id" = Some d →
  get_all_device_ids C w = Some ids →
  ∃ l, NoDup l ∧ (∀ x, x ∈ l ↔ x ∈ ids ∨ x = py_str d)
    ∧ cli_add_device_id C args w
      = let '(ok, w') :=
          write_config_field C "blockstack-client" "default_devices"
            (String.concat "," l) w in
        Returned (if ok then status_true else error_result "Failed to add device") w'.
Proof.
  intros Hset Hd Hids.
  exists (set_to_list C (ids ++ [py_str d])%list).
  destruct (Hset (ids ++ [py_str d])%list) as [Hnd Hel].
  split; [done|]. split.
  { intros x. rewrite Hel, elem_of_app, list_elem_of_singleton. done. }
  unfold cli_add_device_id, try_except_assertion, read_device_ids,
    write_default_devices, mbind, M_bind.
  rewrite Hids. cbv beta iota. rewrite str_attr_eq, Hd. cbv beta iota.
  unfold call. destruct (write_config_field _ _ _ _ _) as [[] w']; done.
Qed.

(** X16. No [AssertionError] leaves [cli_add_device_id] or
    [cli_remove_device_id]; when the configuration cannot be read they
    answer ['Failed to add device'] and ['Failed to remove device']. *)
Theorem device_commands_catch_assertion (args : dict) w :
  (get_all_device_ids C w = None → is_Some (args !! "device_id") →
   cli_add_device_id C args w = Returned (error_result "Failed to add device") w
   ∧ cli_remove_device_id C args w
     = Returned (error_result "Failed to remove device") w)
  ∧ raises (cli_add_device_id C args w) ≠ Some AssertionError
  ∧ raises (cli_remove_device_id C args w) ≠ Some AssertionError.
Proof.
  unfold cli_add_device_id, cli_remove_device_id, try_except_assertion,
    read_device_ids, write_default_devices, mbind, M_bind, call.
  split; [|split].
  - intros Hn [d Hd]. rewrite !str_attr_eq, Hd, Hn. done.
  - destruct (get_all_device_ids C w) as [ids|]; [|done].
    rewrite str_attr_eq. destruct (args !! "device_id"); [|done].
    destruct (write_config_field _ _ _ _ _) as [[] w']; done.
  - rewrite str_attr_eq. destruct (args !! "device_id"); [|done].
    destruct (get_all_device_ids C w) as [ids|]; [|done].
    destruct (negb _); [done|].
    destruct (write_config_field _ _ _ _ _) as [[] w']; done.
Qed.
End Devices.


(** ** On the model and the examples *)

Lemma spec_replies_ok : replies_ok backend.
Proof.
  intros w id devs. simpl. unfold backend_datastore_get, reply_ok.
  destruct (datastores w !! id) as [ds|].
  - right. eexists. apply handle_dict_datastore.
  - left. rewrite failure_error. eauto.
Qed.

Lemma spec_listdir_errno ds path ext force w :
  let res := (datastore_listdir ds path ext force w).1 in
  is_Some (res !! "error") → is_Some (res !! "errno").
Proof.
  unfold datastore_listdir.
  destruct (resolve _ _ _ _) as [[u i]|e]; simpl.
  - destruct (i_data i); simpl.
    + intros _. rewrite failure_errno. eauto.
    + rewrite lookup_insert_ne by done. intros [? H]. done.
  - intros _. rewrite failure_errno. eauto.
Qed.

Lemma list_config_set_semantics : set_semantics list_config.
Proof.
  intros l. simpl. split; [apply NoDup_remove_dups|].
  intros x. apply elem_of_remove_dups.
Qed.

Lemma endpoint_down_nothing_runs_witness :
  local_api_connect backend MoreExamples.w_down = false
  ∧ cli_datastore_mkdir backend (Examples.deletefile_args "/dir") MoreExamples.w_down
    = Returned api_not_running MoreExamples.w_down
  ∧ datastore_file_get backend "datastore" Examples.id "/notes" false false None
      MoreExamples.w_down
    = Returned api_not_running MoreExamples.w_down.
Proof.
  assert (local_api_connect backend MoreExamples.w_down = false) as Hdown
    by reflexivity.
  destruct (endpoint_down_nothing_runs backend MoreExamples.w_down Hdown)
    as (Hget & _ & _ & _ & _ & _ & _ & Hcli & _).
  split; [exact Hdown|]. split.
  - apply Hcli; vm_compute; eexists; reflexivity.
  - apply Hget.
Defined.

Lemma lookup_failure_errno_witness :
  local_api_connect backend Examples.w_empty = true
  ∧ is_Some (backend_datastore_get Examples.w_empty Examples.id None !! "error")
  ∧ datastore_path_stat backend "datastore" Examples.id "/notes" false false false
      None Examples.w_empty
    = Returned (backend_datastore_get Examples.w_empty Examples.id None)
        Examples.w_empty
  ∧ cli_datastore_deletefile backend (Examples.deletefile_args "/notes")
      Examples.w_empty
    = Returned (<[ "errno" := PInt errno.EPERM ]>
                  (backend_datastore_get Examples.w_empty Examples.id None))
        Examples.w_empty.
Proof.
  assert (local_api_connect backend Examples.w_empty = true) as Hup by reflexivity.
  assert (is_Some (backend_datastore_get Examples.w_empty Examples.id None
                   !! "error")) as Herr by (vm_compute; eexists; reflexivity).
  destruct (lookup_failure_errno backend Examples.w_empty Examples.id None _
              Hup eq_refl Herr) as (_ & Hstat & _ & Hdel).
  split; [exact Hup|]. split; [exact Herr|]. split.
  - apply Hstat.
  - apply (Hdel (Examples.deletefile_args "/notes") (PStr "/notes")
             (PStr Examples.key)); reflexivity.
Defined.

Lemma dir_list_errors_carry_errno_witness :
  local_api_connect backend Examples.w_file = true
  ∧ ∃ r, datastore_dir_list backend "datastore" Examples.id "/notes" false false None
           Examples.w_file = Returned r Examples.w_file
         ∧ is_Some (r !! "error") ∧ is_Some (r !! "errno").
Proof.
  assert (local_api_connect backend Examples.w_file = true) as Hup by reflexivity.
  split; [exact Hup|].
  eexists. split; [vm_compute; reflexivity|].
  split; [vm_compute; eexists; reflexivity|].
  eapply (dir_list_errors_carry_errno backend "datastore" Examples.id "/notes" false
            false None Examples.w_file _ Examples.w_file Hup).
  - intros ds. apply spec_listdir_errno.
  - vm_compute. reflexivity.
  - vm_compute. eexists; reflexivity.
Defined.

Lemma type_mismatch_rejected_witness :
  local_api_connect backend Examples.w_collection = true
  ∧ (∃ ds, backend_datastore_get Examples.w_collection Examples.id None !! "datastore"
           = Some (PDatastore ds) ∧ ds_type ds = "collection")
  ∧ datastore_file_get backend "datastore" Examples.id "/notes" false false None
      Examples.w_collection
    = Returned (error_result (is_a Examples.id "collection")) Examples.w_collection
  ∧ delete_datastore_by_type backend "datastore" Examples.key false
      Examples.w_collection
    = Returned (error_result (is_a Examples.id "collection")) Examples.w_collection.
Proof.
  assert (local_api_connect backend Examples.w_collection = true) as Hup
    by reflexivity.
  assert (backend_datastore_get Examples.w_collection Examples.id None !! "error"
          = None) as Herr by (vm_compute; reflexivity).
  destruct (backend_datastore_get Examples.w_collection Examples.id None
            !! "datastore") as [[| | | |ds| |]|] eqn:Hds;
    try (vm_compute in Hds; discriminate).
  assert (ds_type ds = "collection") as Hty.
  { vm_compute in Hds. injection Hds as <-. reflexivity. }
  assert (ds_type ds ≠ "datastore") as Hne by (rewrite Hty; discriminate).
  destruct (type_mismatch_rejected backend Examples.w_collection Examples.id None _
              ds "datastore" Hup eq_refl Herr Hds Hne)
    as (Hget & _ & _ & _ & Hdel).
  rewrite Hty in Hget, Hdel.
  split; [exact Hup|]. split; [by exists ds|]. split.
  - apply Hget.
  - apply Hdel; reflexivity.
Defined.

Lemma write_commands_skip_type_check_witness :
  local_api_connect backend Examples.w_collection = true
  ∧ ds_type (handle_of Examples.w_collection
               {| ds_type := "collection";
                  ds_pubkey := get_pubkey_hex Examples.key;
                  ds_root_uuid := fresh_uuid Examples.w_empty;
                  ds_drivers := ["disk"]; ds_device_ids := ["laptop"; "phone"] |}
               None) = "collection"
  ∧ cli_datastore_mkdir backend (Examples.deletefile_args "/dir")
      Examples.w_collection
    = (let '(res, w') :=
         datastore_mkdir
           (handle_of Examples.w_collection
              {| ds_type := "collection";
                 ds_pubkey := get_pubkey_hex Examples.key;
                 ds_root_uuid := fresh_uuid Examples.w_empty;
                 ds_drivers := ["disk"]; ds_device_ids := ["laptop"; "phone"] |}
              None) "/dir" Examples.key Examples.w_collection in
       Returned res w').
Proof.
  split; [reflexivity|]. split; [reflexivity|].
  apply (write_commands_skip_type_check backend (Examples.deletefile_args "/dir")
           (PStr "/dir") (PStr Examples.key) Examples.w_collection
           (handle_of Examples.w_collection
              {| ds_type := "collection";
                 ds_pubkey := get_pubkey_hex Examples.key;
                 ds_root_uuid := fresh_uuid Examples.w_empty;
                 ds_drivers := ["disk"]; ds_device_ids := ["laptop"; "phone"] |}));
    [reflexivity|reflexivity|reflexivity|].
  intros devs. split; vm_compute; reflexivity.
Defined.

Lemma datastore_commands_return_witness :
  replies_ok backend
  ∧ (∃ r w', cli_datastore_mkdir backend (Examples.deletefile_args "/dir")
               Examples.w_created = Returned r w')
  ∧ (∃ r w', cli_datastore_putfile backend (Examples.putfile_args "/notes" "hello")
               false Examples.w_created = Returned r w')
  ∧ (∃ r w', cli_datastore_listdir backend (Examples.path_args "/")
               Examples.w_created = Returned r w').
Proof.
  destruct (datastore_commands_return backend spec_replies_ok
              (Examples.deletefile_args "/dir") Examples.w_created)
    as (Hwrite & _ & _).
  destruct (datastore_commands_return backend spec_replies_ok
              (Examples.putfile_args "/notes" "hello") Examples.w_created)
    as (Hput & _ & _).
  destruct (datastore_commands_return backend spec_replies_ok
              (Examples.path_args "/") Examples.w_created)
    as (_ & _ & Hread).
  split; [exact spec_replies_ok|]. split; [|split].
  - apply Hwrite; vm_compute; eexists; reflexivity.
  - apply Hput; vm_compute; eexists; reflexivity.
  - apply Hread; vm_compute; eexists; reflexivity.
Defined.

Lemma collection_lifecycle_raises_witness :
  cli_create_collection backend
    {[ "collection_domain" := PStr "photos.app"; "privkey" := PStr Examples.key ]}
    PNone PNone PNone Examples.w_empty = Raised TypeError Examples.w_empty
  ∧ cli_delete_collection backend
      {[ "collection_domain" := PStr "photos.app"; "privkey" := PStr Examples.key ]}
      PNone PNone PNone Examples.w_empty = Raised TypeError Examples.w_empty.
Proof.
  apply (collection_lifecycle_raises backend
           {[ "collection_domain" := PStr "photos.app";
              "privkey" := PStr Examples.key ]} PNone PNone PNone Examples.w_empty).
  vm_compute. eexists; reflexivity.
Defined.

Lemma get_datastore_by_type_record_witness :
  cli_get_datastore backend {[ "datastore_id" := PStr Examples.id ]} Examples.w_created
  = get_datastore_by_type backend "datastore" Examples.id (Some []) Examples.w_created
  ∧ ∃ ds, get_datastore_by_type backend "datastore" Examples.id (Some [])
            Examples.w_created = Returned (inr ds) Examples.w_created
          ∧ ds_type ds = "datastore".
Proof.
  destruct (get_datastore_by_type_record backend) as (Hiff & _ & Hcli).
  split.
  - apply (Hcli {[ "datastore_id" := PStr Examples.id ]} (PStr Examples.id)
             Examples.w_created); reflexivity.
  - exists (handle_of Examples.w_created Examples.ds_created (Some [])).
    split; [|reflexivity].
    apply Hiff. split; [reflexivity|]. split; [reflexivity|].
    split; [vm_compute; reflexivity|]. split; [vm_compute; reflexivity|].
    reflexivity.
Defined.

Lemma file_put_local_file_witness :
  datastore_file_put backend "datastore" Examples.key "/notes" (PStr "/etc/hostname")
    false false false None Examples.w_created
  = datastore_file_put backend "datastore" Examples.key "/notes" (PStr "laptop.local")
      false true false None Examples.w_created
  ∧ datastore_file_put backend "datastore" Examples.key "/notes" (PStr "/etc/shadow")
      false false false None MoreExamples.w_locked
    = Returned (error_result ("Failed to read " ++ dquote ++ "/etc/shadow" ++ dquote))
        MoreExamples.w_locked
  ∧ datastore_file_put backend "datastore" Examples.key "/notes" (PStr "hello")
      false false false None Examples.w_created
    = datastore_file_put backend "datastore" Examples.key "/notes" (PStr "hello")
        false true false None Examples.w_created.
Proof.
  destruct (file_put_local_file backend "datastore" Examples.key "/notes"
              (PStr "/etc/hostname") false false false None Examples.w_created)
    as (_ & Hfile & _).
  destruct (file_put_local_file backend "datastore" Examples.key "/notes"
              (PStr "/etc/shadow") false false false None MoreExamples.w_locked)
    as (_ & _ & Hfail).
  destruct (file_put_local_file backend "datastore" Examples.key "/notes"
              (PStr "hello") false false false None Examples.w_created)
    as (Hdata & _).
  split; [|split].
  - apply Hfile; reflexivity.
  - apply Hfail; reflexivity.
  - apply Hdata. right; right. reflexivity.
Defined.

Lemma create_datastore_succeeds_iff_witness :
  create_datastore_by_type backend "datastore" Examples.key None Examples.w_empty
  = Returned status_true Examples.w_created.
Proof.
  apply (create_datastore_succeeds_iff backend "datastore" Examples.key None
           Examples.w_empty Examples.w_created).
  split; [reflexivity|]. split; [vm_compute; eexists; reflexivity|].
  split; [vm_compute; reflexivity|].
  eexists. split; [vm_compute; reflexivity|]. vm_compute; reflexivity.
Defined.

Lemma delete_force_only_after_failed_rmtree_witness :
  (∀ ds, backend_datastore_get Examples.w_file Examples.id None !! "datastore"
         = Some (PDatastore ds) →
         (datastore_rmtree ds "/" Examples.key Examples.w_file).1 !! "error" = None)
  ∧ delete_datastore_by_type backend "datastore" Examples.key true Examples.w_file
    = delete_datastore_by_type backend "datastore" Examples.key false Examples.w_file.
Proof.
  assert (∀ ds, backend_datastore_get Examples.w_file Examples.id None !! "datastore"
                = Some (PDatastore ds) →
                (datastore_rmtree ds "/" Examples.key Examples.w_file).1 !! "error"
                = None) as Hok.
  { intros ds Hds. vm_compute in Hds. injection Hds as <-. vm_compute. reflexivity. }
  split; [exact Hok|].
  apply (delete_force_only_after_failed_rmtree backend "datastore" Examples.key
           Examples.w_file Hok).
Defined.

Lemma remove_device_id_first_occurrence_witness :
  cli_remove_device_id list_config (MoreExamples.device_args "tablet")
    MoreExamples.devices = Returned status_true MoreExamples.devices
  ∧ ∃ l1 l2, MoreExamples.devices = (l1 ++ ("laptop" :: l2))%list ∧ ("laptop" ∉ l1)
      ∧ cli_remove_device_id list_config (MoreExamples.device_args "laptop")
          MoreExamples.devices
        = let '(ok, w') :=
            write_config_field list_config "blockstack-client" "default_devices"
              (String.concat "," (l1 ++ l2)%list) MoreExamples.devices in
          Returned (if ok then status_true
                    else error_result "Failed to remove device") w'.
Proof.
  split.
  - apply (remove_device_id_first_occurrence list_config
             (MoreExamples.device_args "tablet") (PStr "tablet") MoreExamples.devices
             MoreExamples.devices); [reflexivity|reflexivity|].
    vm_compute. intros H. repeat (apply elem_of_cons in H as [H|H]; [discriminate|]).
    by apply elem_of_nil in H.
  - apply (remove_device_id_first_occurrence list_config
             (MoreExamples.device_args "laptop") (PStr "laptop") MoreExamples.devices
             MoreExamples.devices); [reflexivity|reflexivity|].
    left.
Defined.

Lemma add_device_id_set_witness :
  set_semantics list_config
  ∧ ∃ l, NoDup l ∧ (∀ x, x ∈ l ↔ x ∈ MoreExamples.devices ∨ x = "tablet")
    ∧ cli_add_device_id list_config (MoreExamples.device_args "tablet")
        MoreExamples.devices
      = let '(ok, w') :=
          write_config_field list_config "blockstack-client" "default_devices"
            (String.concat "," l) MoreExamples.devices in
        Returned (if ok then status_true else error_result "Failed to add device") w'.
Proof.
  split; [exact list_config_set_semantics|].
  apply (add_device_id_set list_config (MoreExamples.device_args "tablet")
           (PStr "tablet") MoreExamples.devices MoreExamples.devices
           list_config_set_semantics); reflexivity.
Defined.

Lemma device_commands_catch_assertion_witness :
  cli_add_device_id no_config (MoreExamples.device_args "tablet") tt
  = Returned (error_result "Failed to add device") tt
  ∧ cli_remove_device_id no_config (MoreExamples.device_args "tablet") tt
    = Returned (error_result "Failed to remove device") tt.
Proof.
  apply (device_commands_catch_assertion no_config (MoreExamples.device_args "tablet")
           tt); [reflexivity|]. vm_compute. eexists; reflexivity.
Defined.

Lemma bad_arguments_raise_attribute_error_witness :
  cli_datastore_mkdir backend {[ "privkey" := PStr Examples.key ]} Examples.w_created
  = Raised AttributeError Examples.w_created
  ∧ cli_datastore_getfile backend
      (<[ "force" := PBool true ]> (Examples.path_args "/notes")) Examples.w_file
    = Raised AttributeError Examples.w_file.
Proof.
  destruct (bad_arguments_raise_attribute_error backend
              {[ "privkey" := PStr Examples.key ]} Examples.w_created)
    as (Hw & _).
  destruct (bad_arguments_raise_attribute_error backend
              (<[ "force" := PBool true ]> (Examples.path_args "/notes"))
              Examples.w_file) as (_ & _ & _ & Hr & _).
  split.
  - apply Hw. left. reflexivity.
  - apply Hr. right; right; right; left. vm_compute. reflexivity.
Defined.
